(** * A tool-calling agent over a chat backend: model and verification

    Shallow embedding of [agent_behavior_cloning/llm_with_function_calling.py]:
    the two tool handlers ([evaluate_arithmetic], [get_current_time]), the
    tool table [TOOLS] and the orchestration function [process_query].

    The host facilities the script relies on are modelled explicitly:
    - Python values, dictionaries (insertion-ordered association lists) and
      exceptions;
    - [eval] on the fragment of Python expressions made of integer literals,
      names, the constants [True]/[False]/[None], the operators
      [+ - * / // **], parentheses, attribute access and calls;
    - the chat backend and the wall clock as oracles of a [host] record;
    - standard output and the calls made, as a trace of events.

    The model of [eval] follows the language reference.  Floating-point
    results are outside it: an evaluation that would produce one ends in
    [Unmodelled], about which nothing is claimed.  The resource limits of
    an interpreter (nesting depth, memory, the cap on the number of digits
    converted between text and integers) are not modelled either. *)

From Stdlib Require Import String Ascii List ZArith NArith Lia Bool QArith.
From Stdlib Require Import DecimalString.
From Stdlib Require DecimalN DecimalPos DecimalFacts.
Import ListNotations.

Open Scope string_scope.
Open Scope Z_scope.

(* ================================================================== *)
(** ** Python values *)

(** JSON-like Python objects.  A [dict] keeps insertion order, as Python
    dictionaries do; keys are strings. *)
#[warnings="-register-all"]
Inductive value : Type :=
| VNone
| VBool (b : bool)
| VInt (z : Z)
| VStr (s : string)
| VTuple (elts : list value)
| VList (elts : list value)
| VDict (items : list (string * value)).

Definition dict : Type := list (string * value).

(** [d[key]] lookup; [None] stands for the missing key. *)
Fixpoint dict_lookup (d : dict) (key : string) : option value :=
  match d with
  | [] => None
  | (k, v) :: d' => if String.eqb k key then Some v else dict_lookup d' key
  end.

(** [d.get(key, default)] *)
Definition dict_get (d : dict) (key : string) (default : value) : value :=
  match dict_lookup d key with
  | Some v => v
  | None => default
  end.

(* ================================================================== *)
(** ** Exceptions and outcomes *)

(** The exception classes that occur, with the data a handler can observe.
    [ValueError cause] is the error raised by [evaluate_arithmetic], whose
    message quotes the exception [cause] it wraps. *)
Inductive exn : Type :=
| SyntaxError
| NameError (id : string)
| ZeroDivisionError
| TypeError
| AttributeError (attr : string)
| KeyError (key : string)
| ValueError (cause : exn).

Definition is_ValueError (e : exn) : bool :=
  match e with
  | ValueError _ => true
  | _ => false
  end.

(** Outcome of running a piece of Python: a value, a raised exception, or
    [Unmodelled] when execution leaves the modelled fragment of the host
    language (floating point, syntax outside the fragment). *)
Inductive result (A : Type) : Type :=
| Ret (a : A)
| Raise (e : exn)
| Unmodelled.

Arguments Ret {A} a.
Arguments Raise {A} e.
Arguments Unmodelled {A}.

Definition bind {A B : Type} (r : result A) (k : A -> result B) : result B :=
  match r with
  | Ret a => k a
  | Raise e => Raise e
  | Unmodelled => Unmodelled
  end.

Declare Scope result_scope.
Delimit Scope result_scope with result.
Notation "x <- r ;; k" := (bind r (fun x => k))
  (at level 61, r at next level, right associativity) : result_scope.
Notation "' p <- r ;; k" := (bind r (fun x => let p := x in k))
  (at level 61, p pattern, r at next level, right associativity) : result_scope.
Open Scope result_scope.

(* ================================================================== *)
(** ** Strings *)

Module Str.

(** [s.replace(old, new)] for a one-character [old]: every occurrence of
    the character is replaced. *)
Fixpoint replace (old : ascii) (new : string) (s : string) : string :=
  match s with
  | EmptyString => EmptyString
  | String c s' =>
      if Ascii.eqb c old then new ++ replace old new s'
      else String c (replace old new s')
  end.

(** Longest prefix whose characters satisfy [p], and the remainder. *)
Fixpoint span (p : ascii -> bool) (s : string) : string * string :=
  match s with
  | EmptyString => (EmptyString, EmptyString)
  | String c s' =>
      if p c then let (a, b) := span p s' in (String c a, b)
      else (EmptyString, s)
  end.

Fixpoint forallb (p : ascii -> bool) (s : string) : bool :=
  match s with
  | EmptyString => true
  | String c s' => p c && forallb p s'
  end.

Fixpoint filter (p : ascii -> bool) (s : string) : string :=
  match s with
  | EmptyString => EmptyString
  | String c s' => if p c then String c (filter p s') else filter p s'
  end.

(** [sep.join(parts)] *)
Fixpoint join (sep : string) (parts : list string) : string :=
  match parts with
  | [] => EmptyString
  | [p] => p
  | p :: ps => p ++ sep ++ join sep ps
  end.

(** [s.rjust(width, fill)] *)
Definition rjust (width : nat) (fill : ascii) (s : string) : string :=
  string_of_list_ascii (repeat fill (width - String.length s)) ++ s.

End Str.

(** Character classes (ASCII). *)
Definition code (c : ascii) : N := N_of_ascii c.

Definition is_digit (c : ascii) : bool :=
  ((48 <=? code c) && (code c <=? 57))%N.

Definition is_alpha (c : ascii) : bool :=
  (((65 <=? code c) && (code c <=? 90)) || ((97 <=? code c) && (code c <=? 122)))%N.

Definition is_underscore (c : ascii) : bool := Ascii.eqb c "_".

Definition is_space (c : ascii) : bool := Ascii.eqb c " ".

(** Characters of a decimal literal and of an identifier. *)
Definition is_numchar (c : ascii) : bool := is_digit c || is_underscore c.
Definition is_idstart (c : ascii) : bool := is_alpha c || is_underscore c.
Definition is_idchar (c : ascii) : bool := is_alpha c || is_digit c || is_underscore c.

(* ================================================================== *)
(** ** The host's [eval]: tokens *)

Module PyEval.

Inductive token : Type :=
| TNum (n : N)
| TName (id : string)
| TPlus | TMinus
| TStar | TDoubleStar
| TSlash | TDoubleSlash
| TLParen | TRParen
| TDot.

(** Reserved words other than the constants [True], [False] and [None];
    they introduce syntax outside the fragment. *)
Definition other_keywords : list string :=
  ["and"; "as"; "assert"; "async"; "await"; "break"; "class"; "continue";
   "def"; "del"; "elif"; "else"; "except"; "finally"; "for"; "from";
   "global"; "if"; "import"; "in"; "is"; "lambda"; "nonlocal"; "not";
   "or"; "pass"; "raise"; "return"; "try"; "while"; "with"; "yield"].

(** [__debug__] is not looked up: the compiler replaces it by a constant
    that depends on the interpreter's optimisation flag. *)
Definition compile_time_names : list string := ["__debug__"].

Definition mem (s : string) (l : list string) : bool :=
  existsb (String.eqb s) l.

(** A run of digits and underscores is a decimal integer literal when
    underscores only separate digits and, if it starts with [0], all its
    digits are [0]. *)
Fixpoint underscores_ok (s : string) : bool :=
  match s with
  | EmptyString => true
  | String c s' =>
      (if is_underscore c
       then match s' with
            | EmptyString => false
            | String c' _ => is_digit c'
            end
       else true) && underscores_ok s'
  end.

Definition digits_of (run : string) : string := Str.filter is_digit run.

Definition leading_zeros_ok (digits : string) : bool :=
  match digits with
  | String "0" (String _ _) => Str.forallb (Ascii.eqb "0") digits
  | _ => true
  end.

Definition valid_decimal (run : string) : bool :=
  underscores_ok run && leading_zeros_ok (digits_of run).

Definition decimal_value (run : string) : N :=
  match NilEmpty.uint_of_string (digits_of run) with
  | Some d => N.of_uint d
  | None => 0%N
  end.

(** One step of the tokenizer. *)
Inductive lexed : Type :=
| LEnd
| LTok (t : token) (rest : string)
| LSyntaxError
| LUnmodelled.

Fixpoint lstrip (s : string) : string :=
  match s with
  | String c s' => if is_space c then lstrip s' else s
  | EmptyString => EmptyString
  end.

Definition next_token (s : string) : lexed :=
  match lstrip s with
  | EmptyString => LEnd
  | String c s' =>
      if is_digit c then
        let (run, rest) := Str.span is_numchar (String c s') in
        match rest with
        | String c' _ =>
            if is_alpha c' || Ascii.eqb c' "."
            then LUnmodelled        (* float, hex, imaginary... literals *)
            else if valid_decimal run then LTok (TNum (decimal_value run)) rest
                 else LSyntaxError
        | EmptyString =>
            if valid_decimal run then LTok (TNum (decimal_value run)) rest
            else LSyntaxError
        end
      else if is_idstart c then
        let (id, rest) := Str.span is_idchar (String c s') in
        if mem id other_keywords || mem id compile_time_names then LUnmodelled
        else LTok (TName id) rest
      else if Ascii.eqb c "+" then LTok TPlus s'
      else if Ascii.eqb c "-" then LTok TMinus s'
      else if Ascii.eqb c "(" then LTok TLParen s'
      else if Ascii.eqb c ")" then LTok TRParen s'
      else if Ascii.eqb c "*" then
        match s' with
        | String "*" s'' => LTok TDoubleStar s''
        | _ => LTok TStar s'
        end
      else if Ascii.eqb c "/" then
        match s' with
        | String "/" s'' => LTok TDoubleSlash s''
        | _ => LTok TSlash s'
        end
      else if Ascii.eqb c "." then
        match s' with
        | String c' _ =>
            if is_digit c' || Ascii.eqb c' "." then LUnmodelled
            else LTok TDot s'
        | EmptyString => LTok TDot s'
        end
      else LUnmodelled
  end.

(** The tokenizer: [next_token] iterated; every token consumes at least
    one character, so [length s] steps are enough. *)
Fixpoint tokenize_fuel (fuel : nat) (s : string) : result (list token) :=
  match fuel with
  | O => Unmodelled
  | S fuel' =>
      match next_token s with
      | LEnd => Ret []
      | LTok t rest => ts <- tokenize_fuel fuel' rest ;; Ret (t :: ts)
      | LSyntaxError => Raise SyntaxError
      | LUnmodelled => Unmodelled
      end
  end.

Definition tokenize (s : string) : result (list token) :=
  tokenize_fuel (S (String.length s)) s.

(** ** The host's [eval]: syntax trees and the parser *)

Inductive unaryop : Type := UAdd | USub.
Inductive operator : Type := Add | Sub | Mult | Div | FloorDiv | Pow.
Inductive argkind : Type := Positional | Starred | DoubleStarred.

(** The nodes of Python's [ast] that the fragment produces.  Without a
    comma in the fragment the only tuple display is [()], and a call has
    at most one argument. *)
Inductive expr : Type :=
| Constant (v : value)
| Name (id : string)
| EmptyTuple
| UnaryOp (op : unaryop) (operand : expr)
| BinOp (left : expr) (op : operator) (right : expr)
| Attribute (obj : expr) (attr : string)
| Call0 (func : expr)
| Call1 (func : expr) (kind : argkind) (arg : expr).

Definition atom_of_name (id : string) : expr :=
  if String.eqb id "True" then Constant (VBool true)
  else if String.eqb id "False" then Constant (VBool false)
  else if String.eqb id "None" then Constant VNone
  else Name id.

Definition parsed : Type := result (expr * list token).

Definition expect_rparen (e : expr) (ts : list token) : parsed :=
  match ts with
  | TRParen :: ts' => Ret (e, ts')
  | _ => Raise SyntaxError
  end.

(** Recursive descent along the grammar
<<
    sum     ::= term (('+' | '-') term)*
    term    ::= factor (('*' | '/' | '//') factor)*
    factor  ::= ('+' | '-') factor | power
    power   ::= primary ['**' factor]
    primary ::= atom ('.' NAME | '(' [['*' | '**'] sum] ')')*
    atom    ::= NUMBER | NAME | '(' ')' | '(' sum ')'
>>
    Every call spends one unit of [fuel]; running out of it is
    [Unmodelled], never a syntax error. *)
Fixpoint parse_sum (fuel : nat) (ts : list token) : parsed :=
  match fuel with
  | O => Unmodelled
  | S n => '(t, ts1) <- parse_term n ts ;; parse_sum_rest n t ts1
  end

with parse_sum_rest (fuel : nat) (acc : expr) (ts : list token) : parsed :=
  match fuel with
  | O => Unmodelled
  | S n =>
      match ts with
      | TPlus :: ts1 =>
          '(t, ts2) <- parse_term n ts1 ;; parse_sum_rest n (BinOp acc Add t) ts2
      | TMinus :: ts1 =>
          '(t, ts2) <- parse_term n ts1 ;; parse_sum_rest n (BinOp acc Sub t) ts2
      | _ => Ret (acc, ts)
      end
  end

with parse_term (fuel : nat) (ts : list token) : parsed :=
  match fuel with
  | O => Unmodelled
  | S n => '(f, ts1) <- parse_factor n ts ;; parse_term_rest n f ts1
  end

with parse_term_rest (fuel : nat) (acc : expr) (ts : list token) : parsed :=
  match fuel with
  | O => Unmodelled
  | S n =>
      match ts with
      | TStar :: ts1 =>
          '(f, ts2) <- parse_factor n ts1 ;; parse_term_rest n (BinOp acc Mult f) ts2
      | TSlash :: ts1 =>
          '(f, ts2) <- parse_factor n ts1 ;; parse_term_rest n (BinOp acc Div f) ts2
      | TDoubleSlash :: ts1 =>
          '(f, ts2) <- parse_factor n ts1 ;; parse_term_rest n (BinOp acc FloorDiv f) ts2
      | _ => Ret (acc, ts)
      end
  end

with parse_factor (fuel : nat) (ts : list token) : parsed :=
  match fuel with
  | O => Unmodelled
  | S n =>
      match ts with
      | TPlus :: ts1 => '(f, ts2) <- parse_factor n ts1 ;; Ret (UnaryOp UAdd f, ts2)
      | TMinus :: ts1 => '(f, ts2) <- parse_factor n ts1 ;; Ret (UnaryOp USub f, ts2)
      | _ => parse_power n ts
      end
  end

with parse_power (fuel : nat) (ts : list token) : parsed :=
  match fuel with
  | O => Unmodelled
  | S n =>
      '(p, ts1) <- parse_primary n ts ;;
      match ts1 with
      | TDoubleStar :: ts2 =>
          '(f, ts3) <- parse_factor n ts2 ;; Ret (BinOp p Pow f, ts3)
      | _ => Ret (p, ts1)
      end
  end

with parse_primary (fuel : nat) (ts : list token) : parsed :=
  match fuel with
  | O => Unmodelled
  | S n => '(a, ts1) <- parse_atom n ts ;; parse_trailers n a ts1
  end

with parse_trailers (fuel : nat) (acc : expr) (ts : list token) : parsed :=
  match fuel with
  | O => Unmodelled
  | S n =>
      match ts with
      | TDot :: TName id :: ts1 => parse_trailers n (Attribute acc id) ts1
      | TDot :: _ => Raise SyntaxError
      | TLParen :: TRParen :: ts1 => parse_trailers n (Call0 acc) ts1
      | TLParen :: TStar :: ts1 =>
          '(a, ts2) <- parse_sum n ts1 ;;
          '(c, ts3) <- expect_rparen (Call1 acc Starred a) ts2 ;;
          parse_trailers n c ts3
      | TLParen :: TDoubleStar :: ts1 =>
          '(a, ts2) <- parse_sum n ts1 ;;
          '(c, ts3) <- expect_rparen (Call1 acc DoubleStarred a) ts2 ;;
          parse_trailers n c ts3
      | TLParen :: ts1 =>
          '(a, ts2) <- parse_sum n ts1 ;;
          '(c, ts3) <- expect_rparen (Call1 acc Positional a) ts2 ;;
          parse_trailers n c ts3
      | _ => Ret (acc, ts)
      end
  end

with parse_atom (fuel : nat) (ts : list token) : parsed :=
  match fuel with
  | O => Unmodelled
  | S n =>
      match ts with
      | TNum k :: ts1 => Ret (Constant (VInt (Z.of_N k)), ts1)
      | TName id :: ts1 => Ret (atom_of_name id, ts1)
      | TLParen :: TRParen :: ts1 => Ret (EmptyTuple, ts1)
      | TLParen :: ts1 => '(e, ts2) <- parse_sum n ts1 ;; expect_rparen e ts2
      | _ => Raise SyntaxError
      end
  end.

(** A whole expression: a [sum] followed by the end of the input.  The
    call depth of the descent is at most eight per token. *)
Definition parse (ts : list token) : result expr :=
  '(e, rest) <- parse_sum (8 * List.length ts + 8) ts ;;
  match rest with
  | [] => Ret e
  | _ => Raise SyntaxError
  end.

(** ** The host's [eval]: evaluation *)

(** [bool] is a subclass of [int]: both take part in integer arithmetic. *)
Definition as_int (v : value) : option Z :=
  match v with
  | VInt z => Some z
  | VBool b => Some (if b then 1 else 0)
  | _ => None
  end.

(** [seq * n]: the sequence repeated [n] times, empty when [n <= 0]. *)
Definition repeat_list {A : Type} (l : list A) (n : Z) : list A :=
  List.concat (List.repeat l (Z.to_nat n)).

Definition repeat_string (s : string) (n : Z) : string :=
  String.concat "" (List.repeat s (Z.to_nat n)).

Definition eval_unaryop (op : unaryop) (v : value) : result value :=
  match as_int v with
  | Some z =>
      match op with
      | UAdd => Ret (VInt z)
      | USub => Ret (VInt (- z))
      end
  | None => Raise TypeError
  end.

(** Binary operators.  True division of integers and a negative integer
    exponent produce a [float] unless they divide by zero. *)
Definition eval_operator (op : operator) (l r : value) : result value :=
  match as_int l, as_int r with
  | Some a, Some b =>
      match op with
      | Add => Ret (VInt (a + b))
      | Sub => Ret (VInt (a - b))
      | Mult => Ret (VInt (a * b))
      | Div => if b =? 0 then Raise ZeroDivisionError else Unmodelled
      | FloorDiv => if b =? 0 then Raise ZeroDivisionError else Ret (VInt (a / b))
      | Pow =>
          if 0 <=? b then Ret (VInt (a ^ b))
          else if a =? 0 then Raise ZeroDivisionError else Unmodelled
      end
  | _, _ =>
      match op, l, r with
      | Add, VTuple x, VTuple y => Ret (VTuple (x ++ y))
      | Add, VList x, VList y => Ret (VList (x ++ y))
      | Add, VStr x, VStr y => Ret (VStr (x ++ y))
      | Mult, VTuple x, _ =>
          match as_int r with
          | Some n => Ret (VTuple (repeat_list x n))
          | None => Raise TypeError
          end
      | Mult, VList x, _ =>
          match as_int r with
          | Some n => Ret (VList (repeat_list x n))
          | None => Raise TypeError
          end
      | Mult, VStr x, _ =>
          match as_int r with
          | Some n => Ret (VStr (repeat_string x n))
          | None => Raise TypeError
          end
      | Mult, _, VTuple y =>
          match as_int l with
          | Some n => Ret (VTuple (repeat_list y n))
          | None => Raise TypeError
          end
      | Mult, _, VList y =>
          match as_int l with
          | Some n => Ret (VList (repeat_list y n))
          | None => Raise TypeError
          end
      | Mult, _, VStr y =>
          match as_int l with
          | Some n => Ret (VStr (repeat_string y n))
          | None => Raise TypeError
          end
      | _, _, _ => Raise TypeError
      end
  end.

(** Attributes of integers that are plain data; every other attribute
    (methods, type objects) is outside the model. *)
Definition eval_attribute (v : value) (attr : string) : result value :=
  match as_int v with
  | Some z =>
      if String.eqb attr "real" || String.eqb attr "numerator" then Ret (VInt z)
      else if String.eqb attr "imag" then Ret (VInt 0)
      else if String.eqb attr "denominator" then Ret (VInt 1)
      else Unmodelled
  | None => Unmodelled
  end.

(** The globals handed to [eval] by the arithmetic handler:
    [{"__builtins__": {}}].  Only that one name resolves. *)
Definition sandbox_globals : dict := [("__builtins__", VDict [])].

Definition lookup_name (globals : dict) (id : string) : result value :=
  match dict_lookup globals id with
  | Some v => Ret v
  | None =>
      match dict_lookup globals "__builtins__" with
      | Some (VDict builtins) =>
          match dict_lookup builtins id with
          | Some v => Ret v
          | None => Raise (NameError id)
          end
      | _ => Unmodelled
      end
  end.

(** Operands are evaluated left to right; no value of the model is
    callable, so a call ends in [TypeError] once the callee and the
    argument have been evaluated. *)
Fixpoint eval_expr (globals : dict) (e : expr) : result value :=
  match e with
  | Constant v => Ret v
  | Name id => lookup_name globals id
  | EmptyTuple => Ret (VTuple [])
  | UnaryOp op a => v <- eval_expr globals a ;; eval_unaryop op v
  | BinOp a op b =>
      x <- eval_expr globals a ;;
      y <- eval_expr globals b ;;
      eval_operator op x y
  | Attribute a attr => v <- eval_expr globals a ;; eval_attribute v attr
  | Call0 f => _ <- eval_expr globals f ;; Raise TypeError
  | Call1 f _ a =>
      _ <- eval_expr globals f ;;
      _ <- eval_expr globals a ;;
      Raise TypeError
  end.

(** [eval(source, globals)] *)
Definition eval (source : string) (globals : dict) : result value :=
  ts <- tokenize source ;;
  e <- parse ts ;;
  eval_expr globals e.

End PyEval.

(* ================================================================== *)
(** ** [str] and [repr] *)

Definition hex_digit (n : N) : ascii :=
  match n with
  | 0 => "0" | 1 => "1" | 2 => "2" | 3 => "3" | 4 => "4" | 5 => "5"
  | 6 => "6" | 7 => "7" | 8 => "8" | 9 => "9" | 10 => "a" | 11 => "b"
  | 12 => "c" | 13 => "d" | 14 => "e" | _ => "f"
  end%N%char.

Definition contains (c : ascii) (s : string) : bool :=
  negb (Str.forallb (fun x => negb (Ascii.eqb x c)) s).

(** [repr] of a [str]: single quotes unless the text has a single quote and
    no double quote; backslash, the chosen quote and control characters are
    escaped.  Bytes above 127 belong to printable characters and are kept. *)
Definition repr_char (quote c : ascii) : string :=
  if Ascii.eqb c quote || Ascii.eqb c "\" then String "\" (String c "")
  else if Ascii.eqb c "010" then "\n"
  else if Ascii.eqb c "013" then "\r"
  else if Ascii.eqb c "009" then "\t"
  else if ((code c <? 32) || (code c =? 127))%N
       then String "\" (String "x" (String (hex_digit (code c / 16))
                                           (String (hex_digit (code c mod 16)) "")))
       else String c "".

Fixpoint repr_chars (quote : ascii) (s : string) : string :=
  match s with
  | EmptyString => EmptyString
  | String c s' => repr_char quote c ++ repr_chars quote s'
  end.

Definition repr_str (s : string) : string :=
  let quote : ascii :=
    if contains "'" s && negb (contains "034" s) then "034"%char else "'"%char in
  String quote (repr_chars quote s ++ String quote "").

(** [str] of an [int]: decimal, with a minus sign when negative. *)
Definition str_int (z : Z) : string := NilZero.string_of_int (Z.to_int z).

Fixpoint py_repr (v : value) : string :=
  match v with
  | VNone => "None"
  | VBool true => "True"
  | VBool false => "False"
  | VInt z => str_int z
  | VStr s => repr_str s
  | VTuple elts =>
      match elts with
      | [x] => "(" ++ py_repr x ++ ",)"
      | _ => "(" ++ Str.join ", " (List.map py_repr elts) ++ ")"
      end
  | VList elts => "[" ++ Str.join ", " (List.map py_repr elts) ++ "]"
  | VDict items =>
      "{" ++ Str.join ", "
               (List.map (fun kv => repr_str (fst kv) ++ ": " ++ py_repr (snd kv)) items)
          ++ "}"
  end.

(** [str(v)] *)
Definition py_str (v : value) : string :=
  match v with
  | VStr s => s
  | _ => py_repr v
  end.

(* ================================================================== *)
(** ** Conversations with the chat backend *)

(** A requested tool invocation: [{"name": ..., "arguments": {...}}]. *)
Record function_call : Type := {
  fn_name : string;
  fn_arguments : dict
}.

(** An entry of [tool_calls]; [tc_function] is [None] when the entry has no
    ["function"] key. *)
Record tool_call : Type := {
  tc_function : option function_call
}.

(** The value stored under ["tool_calls"]: [None] or a list. *)
Inductive tool_calls_value : Type :=
| NoCalls
| CallList (calls : list tool_call).

(** A message.  [msg_name] and [msg_tool_calls] are optional keys: [None]
    means that the key is absent. *)
Record message : Type := {
  msg_role : string;
  msg_content : string;
  msg_name : option string;
  msg_tool_calls : option tool_calls_value
}.

Record chat_options : Type := { temperature : Q }.

(** The keyword arguments of [ollama.chat]. *)
Record chat_request : Type := {
  req_model : string;
  req_messages : list message;
  req_tools : option (list value);
  req_options : chat_options
}.

Record chat_response : Type := { resp_message : message }.

Definition MODEL : string := "llama2:7b".
Definition TEMPERATURE : Q := 7 # 10.

(* ================================================================== *)
(** ** The host: chat backend, wall clock, standard output *)

Record datetime : Type := {
  year : N; month : N; day : N;
  hour : N; minute : N; second : N
}.

(** What the script observes of its environment.  [ollama_chat] answers a
    request (the two requests of one query differ, so a function of the
    request leaves the two answers unrelated); [now k] is the [k]-th
    reading of the local clock; [tzname d] is the local zone's abbreviation
    at [d], when the platform knows one. *)
Record host : Type := {
  ollama_chat : chat_request -> chat_response;
  now : nat -> datetime;
  tzname : datetime -> option string
}.

(** What [print] is given. *)
Inductive printed : Type :=
| Prompt (messages : list message)
| Response (response : chat_response)
| ToolExecutionError (e : exn).

(** Observable events, oldest first: lines printed, calls to the chat
    backend, and tool handlers run together with their outcome. *)
Inductive event : Type :=
| Print (p : printed)
| ChatCall (request : chat_request)
| HandlerCall (tool_name : string) (arguments : dict) (outcome : result value).

Record world : Type := {
  trace : list event;
  clock_reads : nat
}.

Definition initial_world : world := {| trace := []; clock_reads := 0 |}.

(** Computations: state passing over [world], with exceptions. *)
Definition M (A : Type) : Type := world -> result A * world.

Definition mret {A : Type} (a : A) : M A := fun w => (Ret a, w).

Definition mbind {A B : Type} (m : M A) (k : A -> M B) : M B :=
  fun w =>
    match m w with
    | (Ret a, w') => k a w'
    | (Raise e, w') => (Raise e, w')
    | (Unmodelled, w') => (Unmodelled, w')
    end.

Definition lift {A : Type} (r : result A) : M A := fun w => (r, w).

Definition emit (e : event) : M unit :=
  fun w => (Ret tt, {| trace := trace w ++ [e]; clock_reads := clock_reads w |}).

Definition print (p : printed) : M unit := emit (Print p).

(** [try: body  except ValueError as e: handler e] *)
Definition try_except_ValueError {A : Type} (body : M A) (handler : exn -> M A) : M A :=
  fun w =>
    match body w with
    | (Raise e, w') => if is_ValueError e then handler e w' else (Raise e, w')
    | other => other
    end.

Declare Scope M_scope.
Delimit Scope M_scope with M.
Notation "x <- m ;; k" := (mbind m (fun x => k))
  (at level 61, m at next level, right associativity) : M_scope.
Notation "m ;; k" := (mbind m (fun _ => k))
  (at level 61, right associativity) : M_scope.

(* ================================================================== *)
(** ** Formatting dates *)

Definition str_N (n : N) : string := NilZero.string_of_uint (N.to_uint n).

(** A number printed in at least [width] columns, padded with zeros. *)
Definition zero_padded (width : nat) (n : N) : string :=
  Str.rjust width "0" (str_N n).

Definition directive (c : ascii) (d : datetime) : string :=
  if Ascii.eqb c "H" then zero_padded 2 (hour d)
  else if Ascii.eqb c "M" then zero_padded 2 (minute d)
  else if Ascii.eqb c "S" then zero_padded 2 (second d)
  else if Ascii.eqb c "Y" then zero_padded 4 (year d)
  else if Ascii.eqb c "m" then zero_padded 2 (month d)
  else if Ascii.eqb c "d" then zero_padded 2 (day d)
  else if Ascii.eqb c "%" then "%"
  else String "%" (String c "").

(** [d.strftime(fmt)] for the numeric directives [%H %M %S %Y %m %d]. *)
Fixpoint strftime (fmt : string) (d : datetime) : string :=
  match fmt with
  | EmptyString => EmptyString
  | String c rest =>
      if Ascii.eqb c "%" then
        match rest with
        | String c' rest' => directive c' d ++ strftime rest' d
        | EmptyString => "%"
        end
      else String c (strftime rest d)
  end.

(** The ranges of the fields of a clock reading.  Years have four digits:
    [datetime] stops at [MAXYEAR = 9999], and below 1000 the width of [%Y]
    depends on the platform's C library. *)
Definition valid_datetime (d : datetime) : Prop :=
  (1000 <= year d <= 9999 /\ 1 <= month d <= 12 /\ 1 <= day d <= 31 /\
   hour d < 24 /\ minute d < 60 /\ second d < 60)%N.

(* ================================================================== *)
(** ** The agent *)

Module LLMAgent.
Section Agent.

Variable h : host.

Open Scope M_scope.

Definition chat (request : chat_request) : M chat_response :=
  emit (ChatCall request) ;; mret (ollama_chat h request).

(** [datetime.datetime.now()] *)
Definition datetime_now : M datetime :=
  fun w => (Ret (now h (clock_reads w)),
            {| trace := trace w; clock_reads := S (clock_reads w) |}).

(** [x or "UTC"]: the default replaces [None] and the empty string. *)
Definition or_default (x : option string) (default : string) : string :=
  match x with
  | Some (String c s) => String c s
  | _ => default
  end.

(** Returns the current time.  [args] is not looked at. *)
Definition get_current_time (args : option dict) : M value :=
  now_ <- datetime_now ;;
  let current_time := strftime "%H:%M:%S" now_ in
  let current_date := strftime "%Y-%m-%d" now_ in
  now2 <- datetime_now ;;
  mret (VDict [("current_time", VStr current_time);
               ("current_date", VStr current_date);
               ("timezone", VStr (or_default (tzname h now2) "UTC"))]).

(** Evaluate a numeric arithmetic expression; the caret is replaced with
    [**].  A value of ["expression"] that is not a string has no
    [replace] method; that error is raised outside the [try]. *)
Definition evaluate_arithmetic (args : dict) : result value :=
  match dict_get args "expression" (VStr "") with
  | VStr expression =>
      let safe_expression := Str.replace "^" "**" expression in
      match PyEval.eval safe_expression PyEval.sandbox_globals with
      | Ret result => Ret result
      | Raise e => Raise (ValueError e)
      | Unmodelled => Unmodelled
      end
  | _ => Raise (AttributeError "replace")
  end.

Record tool : Type := {
  definition : value;
  handler : dict -> M value
}.

Definition evaluate_arithmetic_definition : value :=
  VDict [("type", VStr "function");
         ("function", VDict [
            ("name", VStr "evaluate_arithmetic");
            ("description", VStr "Evaluate a simple arithmetic expression provided as input. The expression should be numeric only and may contain +, -, *, /, parentheses, and '^' for exponentiation.");
            ("parameters", VDict [
               ("type", VStr "object");
               ("properties", VDict [
                  ("expression", VDict [
                     ("type", VStr "string");
                     ("description", VStr "The arithmetic expression to evaluate")])]);
               ("required", VList [VStr "expression"])])])].

Definition get_current_time_definition : value :=
  VDict [("type", VStr "function");
         ("function", VDict [
            ("name", VStr "get_current_time");
            ("description", VStr "Get the current time, date, and timezone information");
            ("parameters", VDict [
               ("type", VStr "object");
               ("properties", VDict [
                  ("format", VDict [
                     ("type", VStr "string");
                     ("description", VStr "Optional format for the time (default, 24h, 12h)");
                     ("enum", VList [VStr "default"; VStr "24h"; VStr "12h"])])]);
               ("required", VList [])])])].

(** The tool table, in definition order. *)
Definition TOOLS : list (string * tool) :=
  [("evaluate_arithmetic",
    {| definition := evaluate_arithmetic_definition;
       handler := fun args => lift (evaluate_arithmetic args) |});
   ("get_current_time",
    {| definition := get_current_time_definition;
       handler := fun args => get_current_time (Some args) |})].

(** [TOOLS[name]] *)
Fixpoint getitem (table : list (string * tool)) (name : string) : M tool :=
  match table with
  | [] => lift (Raise (KeyError name))
  | (k, t) :: table' => if String.eqb k name then mret t else getitem table' name
  end.

Definition get_tool_definitions : list value :=
  List.map (fun entry => definition (snd entry)) TOOLS.

(** Runs a handler and records the call with its outcome. *)
Definition call_handler (tool_name : string) (t : tool) (arguments : dict) : M value :=
  fun w =>
    let (outcome, w') := handler t arguments w in
    (outcome, {| trace := trace w' ++ [HandlerCall tool_name arguments outcome];
                 clock_reads := clock_reads w' |}).

Definition user_message (user_query : string) : message :=
  {| msg_role := "user"; msg_content := user_query;
     msg_name := None; msg_tool_calls := None |}.

Definition tool_message (tool_name : string) (tool_result : value) : message :=
  {| msg_role := "tool"; msg_content := py_str tool_result;
     msg_name := Some tool_name; msg_tool_calls := None |}.

(** [message["tool_calls"]] *)
Definition getitem_tool_calls (m : message) : M tool_calls_value :=
  match msg_tool_calls m with
  | Some v => mret v
  | None => lift (Raise (KeyError "tool_calls"))
  end.

(** The body of [for tool_call in tool_calls].  [Some v] is the value of
    the [return] inside the loop; [None] means that the loop ran to its
    end. *)
Fixpoint for_tool_calls (model user_query : string) (msg : message)
         (tool_calls : list tool_call) : M (option value) :=
  match tool_calls with
  | [] => mret None
  | tool_call :: rest =>
      match tc_function tool_call with
      | Some f =>
          let tool_name := fn_name f in
          let arguments := fn_arguments f in
          returned <-
            try_except_ValueError
              (t <- getitem TOOLS tool_name ;;
               tool_result <- call_handler tool_name t arguments ;;
               let messages := [user_message user_query; msg;
                                tool_message tool_name tool_result] in
               print (Prompt messages) ;;
               followup_response <-
                 chat {| req_model := model; req_messages := messages;
                         req_tools := None;
                         req_options := {| temperature := TEMPERATURE |} |} ;;
               print (Response followup_response) ;;
               mret (Some (VStr (msg_content (resp_message followup_response)))))
              (fun e => print (ToolExecutionError e) ;; mret None) ;;
          match returned with
          | Some v => mret (Some v)
          | None => for_tool_calls model user_query msg rest
          end
      | None => for_tool_calls model user_query msg rest
      end
  end.

(** [process_query(self, user_query)], with [model] for [self.model].
    The decorators of the optimisation framework are not part of the
    model. *)
Definition process_query (model user_query : string) : M value :=
  let tools := get_tool_definitions in
  let messages := [user_message user_query] in
  print (Prompt messages) ;;
  initial_response <-
    chat {| req_model := model; req_messages := messages;
            req_tools := Some tools;
            req_options := {| temperature := TEMPERATURE |} |} ;;
  print (Response initial_response) ;;
  let msg := resp_message initial_response in
  tool_calls <- getitem_tool_calls msg ;;
  returned <-
    match tool_calls with
    | CallList (c :: cs) => for_tool_calls model user_query msg (c :: cs)
    | _ => mret None
    end ;;
  match returned with
  | Some v => mret v
  | None => mret (VStr (msg_content msg))
  end.

End Agent.
End LLMAgent.

(* ================================================================== *)
(** ** Observations on traces *)

Definition is_chat_call (e : event) : bool :=
  match e with ChatCall _ => true | _ => false end.

Definition is_handler_call (e : event) : bool :=
  match e with HandlerCall _ _ _ => true | _ => false end.


Definition chat_calls (tr : list event) : nat :=
  List.length (List.filter is_chat_call tr).

Definition handler_calls (tr : list event) : nat :=
  List.length (List.filter is_handler_call tr).



(** A run of [process_query] from an empty trace, the clock having been
    read [k] times before. *)
Definition fresh (k : nat) : world := {| trace := []; clock_reads := k |}.

Definition initial_request (h : host) (model user_query : string) : chat_request :=
  {| req_model := model;
     req_messages := [LLMAgent.user_message user_query];
     req_tools := Some (LLMAgent.get_tool_definitions h);
     req_options := {| temperature := TEMPERATURE |} |}.

Definition initial_response (h : host) (model user_query : string) : chat_response :=
  ollama_chat h (initial_request h model user_query).

Definition followup_request (model user_query : string) (msg : message)
           (tool_name : string) (tool_result : value) : chat_request :=
  {| req_model := model;
     req_messages := [LLMAgent.user_message user_query; msg;
                      LLMAgent.tool_message tool_name tool_result];
     req_tools := None;
     req_options := {| temperature := TEMPERATURE |} |}.

(** The events up to and including the printing of the first response. *)
Definition opening (h : host) (model user_query : string) : list event :=
  [Print (Prompt [LLMAgent.user_message user_query]);
   ChatCall (initial_request h model user_query);
   Print (Response (initial_response h model user_query))].

(** A tool call that the loop skips after a handler failure: the tool is
    registered and its handler raises [ValueError cause], leaving the world
    as it was. *)
Definition handler_fails (h : host) (c : tool_call) (cause : exn) : Prop :=
  exists f t,
    tc_function c = Some f /\
    (forall w, LLMAgent.getitem (LLMAgent.TOOLS h) (fn_name f) w = (Ret t, w)) /\
    (forall w, LLMAgent.handler t (fn_arguments f) w = (Raise (ValueError cause), w)).

(** What a failed tool call leaves in the trace. *)
Definition failure_events (c : tool_call) (cause : exn) : list event :=
  match tc_function c with
  | Some f =>
      [HandlerCall (fn_name f) (fn_arguments f) (Raise (ValueError cause));
       Print (ToolExecutionError (ValueError cause))]
  | None => []
  end.

(** A tool call that the loop passes over: no ["function"] key, or a
    failing handler. *)
Inductive skipped (h : host) : tool_call -> list event -> Prop :=
| skipped_no_function c :
    tc_function c = None -> skipped h c []
| skipped_failure c cause :
    handler_fails h c cause -> skipped h c (failure_events c cause).

(** A text matches a pattern when it has the pattern's length, a digit
    wherever the pattern has a letter, and the pattern's character
    elsewhere: ["HH:MM:SS"], ["YYYY-MM-DD"]. *)
Fixpoint matches (pattern text : string) : bool :=
  match pattern, text with
  | EmptyString, EmptyString => true
  | String p pattern', String c text' =>
      (if is_alpha p then is_digit c else Ascii.eqb p c) && matches pattern' text'
  | _, _ => false
  end.

(** The world after more events. *)
Definition log (w : world) (evs : list event) : world :=
  {| trace := trace w ++ evs; clock_reads := clock_reads w |}.

(* ================================================================== *)
(** ** Scripted hosts *)

Definition assistant (content : string) (calls : option tool_calls_value) : message :=
  {| msg_role := "assistant"; msg_content := content;
     msg_name := None; msg_tool_calls := calls |}.

Definition arithmetic_call (expression : string) : tool_call :=
  {| tc_function :=
       Some {| fn_name := "evaluate_arithmetic";
               fn_arguments := [("expression", VStr expression)] |} |}.

Definition named_call (tool_name : string) : tool_call :=
  {| tc_function := Some {| fn_name := tool_name; fn_arguments := [] |} |}.

Definition noon : datetime :=
  {| year := 2025; month := 3; day := 7; hour := 12; minute := 0; second := 0 |}.

(** A backend that answers the request carrying tool definitions with the
    message [first] and the follow-up request with the text [final]. *)
Definition scripted_host (first : message) (final : string) : host :=
  {| ollama_chat := fun request =>
       match req_tools request with
       | Some _ => {| resp_message := first |}
       | None => {| resp_message := assistant final None |}
       end;
     now := fun _ => noon;
     tzname := fun _ => Some "CET" |}.

(** The events left by a list of failed calls. *)
Definition failures_events (calls : list tool_call) (causes : list exn) : list event :=
  List.concat (List.map (fun ce => failure_events (fst ce) (snd ce))
                        (List.combine calls causes)).

(** A text of [width] digits. *)
Definition all_digits (width : nat) (s : string) : bool :=
  Nat.eqb (String.length s) width && Str.forallb is_digit s.

(** What may follow a literal: anything that does not continue it. *)
Definition num_stop (rest : string) : Prop :=
  match rest with
  | EmptyString => True
  | String c _ => is_idchar c || Ascii.eqb c "." = false
  end.

(** The handler's rewriting of the caret. *)
Definition carets_replaced (s : string) : string := Str.replace "^" "**" s.

(** An expression starts with a digit, a parenthesis or a sign. *)
Definition first_ok (s : string) : Prop :=
  match s with
  | String c _ => is_digit c = true \/ c = "("%char \/ c = "+"%char \/ c = "-"%char
  | EmptyString => False
  end.

(** The syntax tree of the handler's input, carets replaced. *)
Definition source_tree (expression : string) : result PyEval.expr :=
  ts <- PyEval.tokenize (Str.replace "^" "**" expression) ;; PyEval.parse ts.



(* ================================================================== *)
(** * Arithmetic expressions, as the tool description means them *)

(** Well-formed expressions over decimal integer literals, [+ - * /],
    parentheses and [^], by precedence level: sums of terms, terms of
    factors, signed factors, powers (the exponent is a factor, so [^]
    associates to the right and binds tighter than a sign on its left),
    and atoms. *)
Module Arith.

Inductive sum : Type :=
| S_term (t : term)
| S_add (s : sum) (t : term)
| S_sub (s : sum) (t : term)
with term : Type :=
| T_factor (f : factor)
| T_mul (t : term) (f : factor)
| T_div (t : term) (f : factor)
with factor : Type :=
| F_power (p : power)
| F_neg (f : factor)
| F_pos (f : factor)
with power : Type :=
| P_atom (a : atom)
| P_pow (a : atom) (f : factor)
with atom : Type :=
| A_num (n : N)
| A_paren (s : sum).

(** The text of an expression: literals in decimal without leading zeros,
    no blanks. *)
Fixpoint render_sum (s : sum) : string :=
  match s with
  | S_term t => render_term t
  | S_add s t => render_sum s ++ "+" ++ render_term t
  | S_sub s t => render_sum s ++ "-" ++ render_term t
  end
with render_term (t : term) : string :=
  match t with
  | T_factor f => render_factor f
  | T_mul t f => render_term t ++ "*" ++ render_factor f
  | T_div t f => render_term t ++ "/" ++ render_factor f
  end
with render_factor (f : factor) : string :=
  match f with
  | F_power p => render_power p
  | F_neg f => "-" ++ render_factor f
  | F_pos f => "+" ++ render_factor f
  end
with render_power (p : power) : string :=
  match p with
  | P_atom a => render_atom a
  | P_pow a f => render_atom a ++ "^" ++ render_factor f
  end
with render_atom (a : atom) : string :=
  match a with
  | A_num n => str_N n
  | A_paren s => "(" ++ render_sum s ++ ")"
  end.




End Arith.

(* ================================================================== *)
(** ** From expressions to tokens and syntax trees *)

Section Translation.

Import Arith PyEval.
Local Open Scope list_scope.

(** The tokens of an expression's text. *)
Fixpoint tokens_sum (s : sum) : list token :=
  match s with
  | S_term t => tokens_term t
  | S_add s t => tokens_sum s ++ TPlus :: tokens_term t
  | S_sub s t => tokens_sum s ++ TMinus :: tokens_term t
  end
with tokens_term (t : term) : list token :=
  match t with
  | T_factor f => tokens_factor f
  | T_mul t f => tokens_term t ++ TStar :: tokens_factor f
  | T_div t f => tokens_term t ++ TSlash :: tokens_factor f
  end
with tokens_factor (f : factor) : list token :=
  match f with
  | F_power p => tokens_power p
  | F_neg f => TMinus :: tokens_factor f
  | F_pos f => TPlus :: tokens_factor f
  end
with tokens_power (p : power) : list token :=
  match p with
  | P_atom a => tokens_atom a
  | P_pow a f => tokens_atom a ++ TDoubleStar :: tokens_factor f
  end
with tokens_atom (a : atom) : list token :=
  match a with
  | A_num n => [TNum n]
  | A_paren s => TLParen :: tokens_sum s ++ [TRParen]
  end.

(** The syntax tree Python builds for an expression. *)
Fixpoint ast_sum (s : sum) : expr :=
  match s with
  | S_term t => ast_term t
  | S_add s t => BinOp (ast_sum s) Add (ast_term t)
  | S_sub s t => BinOp (ast_sum s) Sub (ast_term t)
  end
with ast_term (t : term) : expr :=
  match t with
  | T_factor f => ast_factor f
  | T_mul t f => BinOp (ast_term t) Mult (ast_factor f)
  | T_div t f => BinOp (ast_term t) Div (ast_factor f)
  end
with ast_factor (f : factor) : expr :=
  match f with
  | F_power p => ast_power p
  | F_neg f => UnaryOp USub (ast_factor f)
  | F_pos f => UnaryOp UAdd (ast_factor f)
  end
with ast_power (p : power) : expr :=
  match p with
  | P_atom a => ast_atom a
  | P_pow a f => BinOp (ast_atom a) Pow (ast_factor f)
  end
with ast_atom (a : atom) : expr :=
  match a with
  | A_num n => Constant (VInt (Z.of_N n))
  | A_paren s => ast_sum s
  end.

(** Number of binary operators at the top of a sum or a term. *)
Fixpoint ops_sum (s : sum) : nat :=
  match s with
  | S_term _ => 0
  | S_add s _ | S_sub s _ => S (ops_sum s)
  end.

Fixpoint ops_term (t : term) : nat :=
  match t with
  | T_factor _ => 0
  | T_mul t _ | T_div t _ => S (ops_term t)
  end.

(** Fuel with which the descent gets through an expression. *)
Fixpoint need_sum (s : sum) : nat :=
  match s with
  | S_term t => S (Nat.max (need_term t) (ops_term t + 2))
  | S_add s t | S_sub s t =>
      Nat.max (need_sum s) (Nat.max (need_term t) (ops_term t + 2) + ops_sum s + 2)
  end
with need_term (t : term) : nat :=
  match t with
  | T_factor f => S (need_factor f)
  | T_mul t f | T_div t f => Nat.max (need_term t) (need_factor f + ops_term t + 2)
  end
with need_factor (f : factor) : nat :=
  match f with
  | F_power p => S (need_power p)
  | F_neg f | F_pos f => S (need_factor f)
  end
with need_power (p : power) : nat :=
  match p with
  | P_atom a => S (S (need_atom a))
  | P_pow a f => S (Nat.max (S (need_atom a)) (need_factor f))
  end
with need_atom (a : atom) : nat :=
  match a with
  | A_num _ => 1
  | A_paren s => S (Nat.max (need_sum s) (ops_sum s + 2))
  end.

(** What may follow a primary, a power or factor, a term. *)
Definition stop_trailers (ts : list token) : Prop :=
  match ts with
  | TDot :: _ | TLParen :: _ => False
  | _ => True
  end.

Definition stop_power (ts : list token) : Prop :=
  match ts with
  | TDot :: _ | TLParen :: _ | TDoubleStar :: _ => False
  | _ => True
  end.

Definition stop_term (ts : list token) : Prop :=
  match ts with
  | TDot :: _ | TLParen :: _ | TDoubleStar :: _
  | TStar :: _ | TSlash :: _ | TDoubleSlash :: _ => False
  | _ => True
  end.

Definition stop_sum (ts : list token) : Prop :=
  match ts with
  | TDot :: _ | TLParen :: _ | TDoubleStar :: _
  | TStar :: _ | TSlash :: _ | TDoubleSlash :: _
  | TPlus :: _ | TMinus :: _ => False
  | _ => True
  end.

(** How an atom and a factor start. *)
Definition starts_atom (ts : list token) : Prop :=
  match ts with
  | TNum _ :: _ | TLParen :: _ => True
  | _ => False
  end.

Definition starts_factor (ts : list token) : Prop :=
  match ts with
  | TNum _ :: _ | TLParen :: _ | TPlus :: _ | TMinus :: _ => True
  | _ => False
  end.


End Translation.

Scheme sum_mut := Induction for Arith.sum Sort Prop
  with term_mut := Induction for Arith.term Sort Prop
  with factor_mut := Induction for Arith.factor Sort Prop
  with power_mut := Induction for Arith.power Sort Prop
  with atom_mut := Induction for Arith.atom Sort Prop.

Combined Scheme arith_mutind from sum_mut, term_mut, factor_mut, power_mut, atom_mut.

(* ================================================================== *)
(** ** Regular expressions *)

(** The part of [re] that the date pattern uses: the anchors [^] and [$],
    the class [\d], literal characters, and counted repetition [{n}] of a
    single character.  With these every node matches in one way only, so
    matching needs no backtracking.  On [str] patterns [\d] also accepts
    the decimal digits of other scripts; a subject that is not ASCII is
    [Unmodelled]. *)
Module Re.

Inductive atom : Type :=
| AnyDigit
| Char (c : ascii).

Inductive node : Type :=
| Bol
| Eol
| Rep (a : atom) (count : nat).

Definition atom_matches (a : atom) (c : ascii) : bool :=
  match a with
  | AnyDigit => is_digit c
  | Char x => Ascii.eqb x c
  end.

(** [count] characters matching [a]; what is left of the subject. *)
Fixpoint match_rep (a : atom) (count : nat) (s : string) : option string :=
  match count with
  | O => Some s
  | S n =>
      match s with
      | String c s' => if atom_matches a c then match_rep a n s' else None
      | EmptyString => None
      end
  end.

(** [$] holds at the end of the subject and before a final newline. *)
Definition at_end (s : string) : bool :=
  match s with
  | EmptyString => true
  | String c EmptyString => Ascii.eqb c "010"
  | _ => false
  end.

Fixpoint match_nodes (at_start : bool) (nodes : list node) (s : string) : option string :=
  match nodes with
  | [] => Some s
  | Bol :: nodes' => if at_start then match_nodes at_start nodes' s else None
  | Eol :: nodes' => if at_end s then match_nodes at_start nodes' s else None
  | Rep a count :: nodes' =>
      match match_rep a count s with
      | Some rest => match_nodes (at_start && Nat.eqb count 0) nodes' rest
      | None => None
      end
  end.

Definition is_ascii (c : ascii) : bool := (code c <? 128)%N.

(** [re.fullmatch(pattern, subject) is not None]: the pattern matches from
    the start and the match ends at the end of the subject. *)
Definition fullmatch (pattern : list node) (subject : string) : result bool :=
  if Str.forallb is_ascii subject then
    Ret (match match_nodes true pattern subject with
         | Some EmptyString => true
         | _ => false
         end)
  else Unmodelled.

End Re.

(* ================================================================== *)
(** ** Feedback on a predicted date *)

(** [r"^\d{4}-\d{2}-\d{2}$"] *)
Definition date_regex : list Re.node :=
  [Re.Bol; Re.Rep Re.AnyDigit 4; Re.Rep (Re.Char "-") 1; Re.Rep Re.AnyDigit 2;
   Re.Rep (Re.Char "-") 1; Re.Rep Re.AnyDigit 2; Re.Eol].

(** [get_date_feedback(predict)]: the clock is read only when the format
    is right. *)
Definition get_date_feedback (h : host) (predict : string) : M string :=
  (matched <- lift (Re.fullmatch date_regex predict) ;;
   if negb matched then mret "Error: Date format incorrect. Expected YYYY-MM-DD."
   else
     now_ <- LLMAgent.datetime_now h ;;
     let date := strftime "%Y-%m-%d" now_ in
     if String.eqb predict date then mret "Success!"
     else mret "Error: Wrong date.")%M.

(** Two clock readings on the same day. *)
Definition same_date (a b : datetime) : Prop :=
  year a = year b /\ month a = month b /\ day a = day b.

(* ================================================================== *)
(** ** Further observations *)

(** The requests sent to the chat backend, oldest first. *)
Definition chat_requests (tr : list event) : list chat_request :=
  List.flat_map (fun e => match e with ChatCall r => [r] | _ => [] end) tr.



(** [definition["function"]["name"]] *)
Definition definition_name (d : value) : option string :=
  match d with
  | VDict items =>
      match dict_lookup items "function" with
      | Some (VDict f) =>
          match dict_lookup f "name" with
          | Some (VStr name) => Some name
          | _ => None
          end
      | _ => None
      end
  | _ => None
  end.

(** Text that [repr] quotes without escaping: printable ASCII other than
    quotes and the backslash. *)
Definition plain_char (c : ascii) : bool :=
  ((32 <=? code c) && (code c <? 127))%N &&
  negb (Ascii.eqb c "'") && negb (Ascii.eqb c "034") && negb (Ascii.eqb c "\").

Definition plain (s : string) : bool := Str.forallb plain_char s.

(** The outcome of an arithmetic expression read from left to right: an
    integer, a division by zero, or a result that is not an integer (a
    quotient, a negative power). *)
Module ArithOutcome.

Import Arith.

Inductive verdict : Type :=
| Value (z : Z)
| DivisionByZero
| NotInteger.

Definition combine (op : Z -> Z -> verdict) (x y : verdict) : verdict :=
  match x with
  | Value a =>
      match y with
      | Value b => op a b
      | other => other
      end
  | other => other
  end.

Definition divide (a b : Z) : verdict :=
  if b =? 0 then DivisionByZero else NotInteger.

Definition raise_to (a b : Z) : verdict :=
  if 0 <=? b then Value (a ^ b)
  else if a =? 0 then DivisionByZero else NotInteger.

Definition negate (x : verdict) : verdict :=
  match x with
  | Value a => Value (- a)
  | other => other
  end.

Fixpoint sum_verdict (s : sum) : verdict :=
  match s with
  | S_term t => term_verdict t
  | S_add s t => combine (fun a b => Value (a + b)) (sum_verdict s) (term_verdict t)
  | S_sub s t => combine (fun a b => Value (a - b)) (sum_verdict s) (term_verdict t)
  end
with term_verdict (t : term) : verdict :=
  match t with
  | T_factor f => factor_verdict f
  | T_mul t f => combine (fun a b => Value (a * b)) (term_verdict t) (factor_verdict f)
  | T_div t f => combine divide (term_verdict t) (factor_verdict f)
  end
with factor_verdict (f : factor) : verdict :=
  match f with
  | F_power p => power_verdict p
  | F_neg f => negate (factor_verdict f)
  | F_pos f => factor_verdict f
  end
with power_verdict (p : power) : verdict :=
  match p with
  | P_atom a => atom_verdict a
  | P_pow a f => combine raise_to (atom_verdict a) (factor_verdict f)
  end
with atom_verdict (a : atom) : verdict :=
  match a with
  | A_num n => Value (Z.of_N n)
  | A_paren s => sum_verdict s
  end.

End ArithOutcome.

Section Outcomes.

Import Arith ArithOutcome.

(** What the evaluator makes of a verdict. *)
Definition verdict_result (x : verdict) : result value :=
  match x with
  | Value z => Ret (VInt z)
  | DivisionByZero => Raise ZeroDivisionError
  | NotInteger => Unmodelled
  end.


(** [7+3*2/(4-2^2)] *)
Definition dividing_by_zero : sum :=
  S_add (S_term (T_factor (F_power (P_atom (A_num 7)))))
        (T_div (T_mul (T_factor (F_power (P_atom (A_num 3))))
                      (F_power (P_atom (A_num 2))))
               (F_power (P_atom (A_paren
                  (S_sub (S_term (T_factor (F_power (P_atom (A_num 4)))))
                         (T_factor (F_power (P_pow (A_num 2)
                                                   (F_power (P_atom (A_num 2))))))))))).

End Outcomes.

(* ================================================================== *)
(** * Properties of the orchestration loop *)

Section LoopFacts.

Variable h : host.
Variables model user_query : string.

Import LLMAgent.
Local Open Scope list_scope.

Let msg0 := resp_message (initial_response h model user_query).

Lemma log_log w a b : log (log w a) b = log w (a ++ b).
Proof. unfold log; simpl; now rewrite <- app_assoc. Qed.

Lemma log_nil w : log w [] = w.
Proof. destruct w; unfold log; simpl; now rewrite List.app_nil_r. Qed.

(** The table has two entries; any other name is a [KeyError]. *)
Lemma getitem_TOOLS name w :
  getitem (TOOLS h) name w =
  if String.eqb "evaluate_arithmetic" name then
    (Ret {| definition := evaluate_arithmetic_definition;
            handler := fun args => lift (evaluate_arithmetic args) |}, w)
  else if String.eqb "get_current_time" name then
    (Ret {| definition := get_current_time_definition;
            handler := fun args => get_current_time h (Some args) |}, w)
  else (Raise (KeyError name), w).
Proof.
  unfold TOOLS, getitem.
  destruct (String.eqb "evaluate_arithmetic" name); [reflexivity|].
  destruct (String.eqb "get_current_time" name); reflexivity.
Qed.

(** Handlers of the table write nothing to the trace. *)
Lemma handler_trace name t args w w1 :
  getitem (TOOLS h) name w = (Ret t, w1) ->
  w1 = w /\ trace (snd (handler t args w)) = trace w.
Proof.
  rewrite getitem_TOOLS.
  destruct (String.eqb "evaluate_arithmetic" name).
  - intros [= <- <-]; split; reflexivity.
  - destruct (String.eqb "get_current_time" name).
    + intros [= <- <-]; split; reflexivity.
    + discriminate.
Qed.

(** One iteration of the loop on an entry with a ["function"] key. *)
Lemma for_tool_calls_step msg c rest f w :
  tc_function c = Some f ->
  for_tool_calls h model user_query msg (c :: rest) w =
  match getitem (TOOLS h) (fn_name f) w with
  | (Ret t, w1) =>
      let (outcome, w2) := handler t (fn_arguments f) w1 in
      let w3 := log w2 [HandlerCall (fn_name f) (fn_arguments f) outcome] in
      match outcome with
      | Ret v =>
          let request := followup_request model user_query msg (fn_name f) v in
          (Ret (Some (VStr (msg_content (resp_message (ollama_chat h request))))),
           log w3 [Print (Prompt (req_messages request)); ChatCall request;
                   Print (Response (ollama_chat h request))])
      | Raise e =>
          if is_ValueError e
          then for_tool_calls h model user_query msg rest
                 (log w3 [Print (ToolExecutionError e)])
          else (Raise e, w3)
      | Unmodelled => (Unmodelled, w3)
      end
  | (Raise e, w1) =>
      if is_ValueError e
      then for_tool_calls h model user_query msg rest
             (log w1 [Print (ToolExecutionError e)])
      else (Raise e, w1)
  | (Unmodelled, w1) => (Unmodelled, w1)
  end.
Proof.
  intros Hf. cbn [for_tool_calls]. rewrite Hf.
  unfold mbind at 1, try_except_ValueError, mbind at 1.
  destruct (getitem (TOOLS h) (fn_name f) w) as [[t| e|] w1].
  - unfold mbind at 1, call_handler.
    destruct (handler t (fn_arguments f) w1) as [[v|e|] w2]; cbv zeta.
    + unfold print, chat, emit, mbind, mret, log, followup_request.
      cbn [trace clock_reads req_messages]. rewrite <- !app_assoc. reflexivity.
    + unfold print, emit, mbind, mret, log.
      destruct (is_ValueError e); reflexivity.
    + reflexivity.
  - unfold print, emit, mbind, mret, log. destruct (is_ValueError e); reflexivity.
  - reflexivity.
Qed.

Lemma for_tool_calls_no_function msg c rest w :
  tc_function c = None ->
  for_tool_calls h model user_query msg (c :: rest) w =
  for_tool_calls h model user_query msg rest w.
Proof. intros Hf; cbn [for_tool_calls]; now rewrite Hf. Qed.

Lemma mbind_print {A} p (k : unit -> M A) w :
  mbind (print p) k w = k tt (log w [Print p]).
Proof. reflexivity. Qed.

Lemma mbind_chat {A} request (k : chat_response -> M A) w :
  mbind (chat h request) k w = k (ollama_chat h request) (log w [ChatCall request]).
Proof. reflexivity. Qed.

(** [process_query] up to the loop. *)
Lemma process_query_unfold w :
  process_query h model user_query w =
  let w1 := log w (opening h model user_query) in
  match msg_tool_calls msg0 with
  | None => (Raise (KeyError "tool_calls"), w1)
  | Some (CallList (c :: cs)) =>
      match for_tool_calls h model user_query msg0 (c :: cs) w1 with
      | (Ret (Some v), w2) => (Ret v, w2)
      | (Ret None, w2) => (Ret (VStr (msg_content msg0)), w2)
      | (Raise e, w2) => (Raise e, w2)
      | (Unmodelled, w2) => (Unmodelled, w2)
      end
  | Some _ => (Ret (VStr (msg_content msg0)), w1)
  end.
Proof.
  unfold process_query. cbv zeta.
  rewrite mbind_print, mbind_chat, mbind_print, !log_log.
  cbn [app].
  change (log w _) with (log w (opening h model user_query)).
  change (ollama_chat h _) with (initial_response h model user_query).
  fold msg0.
  unfold getitem_tool_calls.
  destruct (msg_tool_calls msg0) as [[|[|c cs]]|]; try reflexivity.
  unfold mbind, mret.
  destruct (for_tool_calls _ _ _ _ _ _) as [[[v|]| |] w2]; reflexivity.
Qed.

Lemma log_fresh k evs : log (fresh k) evs = {| trace := evs; clock_reads := k |}.
Proof. reflexivity. Qed.

(** Entries without a ["function"] key are passed over. *)
Lemma for_tool_calls_all_no_function msg calls w :
  Forall (fun c => tc_function c = None) calls ->
  for_tool_calls h model user_query msg calls w = (Ret None, w).
Proof.
  induction 1 as [|c calls Hc _ IH]; [reflexivity|].
  now rewrite for_tool_calls_no_function.
Qed.

(** A skipped entry only adds its events. *)
Lemma for_tool_calls_skipped msg c evs rest w :
  skipped h c evs ->
  for_tool_calls h model user_query msg (c :: rest) w =
  for_tool_calls h model user_query msg rest (log w evs).
Proof.
  intros [c' Hnone | c' cause (f & t & Hf & Hget & Hfail)].
  - rewrite log_nil. now apply for_tool_calls_no_function.
  - rewrite (for_tool_calls_step _ _ _ _ _ Hf), Hget, Hfail.
    cbv zeta. cbn [is_ValueError]. rewrite log_log.
    unfold failure_events. rewrite Hf. reflexivity.
Qed.

Lemma for_tool_calls_skipped_prefix msg earlier evss later w :
  Forall2 (skipped h) earlier evss ->
  for_tool_calls h model user_query msg (earlier ++ later) w =
  for_tool_calls h model user_query msg later (log w (List.concat evss)).
Proof.
  intros HF; revert w.
  induction HF as [|c evs earlier evss Hc _ IH]; intros w.
  - cbn [app List.concat]. now rewrite log_nil.
  - cbn [app List.concat].
    rewrite (for_tool_calls_skipped _ _ _ _ _ Hc), IH, log_log. reflexivity.
Qed.

(** A name outside the table is a [KeyError], which the [except] clause
    lets through. *)
Lemma for_tool_calls_unknown msg c f rest w :
  tc_function c = Some f ->
  ~ In (fn_name f) (List.map fst (TOOLS h)) ->
  for_tool_calls h model user_query msg (c :: rest) w = (Raise (KeyError (fn_name f)), w).
Proof.
  intros Hf Hnot.
  rewrite (for_tool_calls_step _ _ _ _ _ Hf), getitem_TOOLS.
  destruct (String.eqb_spec "evaluate_arithmetic" (fn_name f)) as [E|_].
  { exfalso; apply Hnot; rewrite <- E; cbn; auto. }
  destruct (String.eqb_spec "get_current_time" (fn_name f)) as [E|_].
  { exfalso; apply Hnot; rewrite <- E; cbn; auto. }
  reflexivity.
Qed.

Lemma chat_calls_app a b : chat_calls (a ++ b) = (chat_calls a + chat_calls b)%nat.
Proof. unfold chat_calls; now rewrite List.filter_app, List.length_app. Qed.




End LoopFacts.

(* ================================================================== *)
(** * The claims about [process_query] *)

Section QueryClaims.

Import LLMAgent.
Local Open Scope list_scope.

Lemma evaluate_arithmetic_2_caret_3 :
  evaluate_arithmetic [("expression", VStr "2^3")] = Ret (VInt 8).
Proof. vm_compute. reflexivity. Qed.

(** C1: when the first requested tool call is [evaluate_arithmetic] with
    [{"expression": "2^3"}], the handler is run and yields 8; the follow-up
    conversation has exactly three messages (the user's, the assistant's
    message, and a tool message named [evaluate_arithmetic] with content
    ["8"]); the backend is called a second time without tool definitions;
    the answer is the content of that second response; and no other
    requested call is attempted (the trace holds a single handler call). *)
Theorem C1_arithmetic_round_trip (h : host) (model user_query : string) (k : nat)
        (c : tool_call) (rest : list tool_call) :
  let msg := resp_message (initial_response h model user_query) in
  let args := [("expression", VStr "2^3")] in
  let request :=
    {| req_model := model;
       req_messages :=
         [user_message user_query; msg;
          {| msg_role := "tool"; msg_content := "8";
             msg_name := Some "evaluate_arithmetic"; msg_tool_calls := None |}];
       req_tools := None;
       req_options := {| temperature := TEMPERATURE |} |} in
  msg_tool_calls msg = Some (CallList (c :: rest)) ->
  tc_function c = Some {| fn_name := "evaluate_arithmetic"; fn_arguments := args |} ->
  evaluate_arithmetic args = Ret (VInt 8) /\
  process_query h model user_query (fresh k) =
    (Ret (VStr (msg_content (resp_message (ollama_chat h request)))),
     {| trace := opening h model user_query ++
                 [HandlerCall "evaluate_arithmetic" args (Ret (VInt 8));
                  Print (Prompt (req_messages request));
                  ChatCall request;
                  Print (Response (ollama_chat h request))];
        clock_reads := k |}).
Proof.
  intros msg args request Hcalls Hf.
  split; [exact evaluate_arithmetic_2_caret_3|].
  rewrite process_query_unfold. cbv zeta. fold msg. rewrite Hcalls.
  rewrite (for_tool_calls_step _ _ _ _ _ _ _ _ Hf), getitem_TOOLS.
  cbn [fn_name fn_arguments handler lift].
  change (String.eqb "evaluate_arithmetic" "evaluate_arithmetic") with true.
  cbv iota. cbn [handler lift].
  pose proof evaluate_arithmetic_2_caret_3 as E. fold args in E. rewrite E.
  cbv zeta. rewrite !log_log, log_fresh. reflexivity.
Qed.

Lemma C1_arithmetic_round_trip_witness :
  let h := scripted_host
             (assistant "" (Some (CallList [arithmetic_call "2^3"; arithmetic_call "1+1"])))
             "2^3 is 8." in
  fst (process_query h MODEL "What is 2^3?" (fresh 0)) = Ret (VStr "2^3 is 8.").
Proof.
  intros h.
  destruct (C1_arithmetic_round_trip h MODEL "What is 2^3?" 0
              (arithmetic_call "2^3") [arithmetic_call "1+1"] eq_refl eq_refl)
    as [_ Hrun].
  rewrite Hrun. reflexivity.
Defined.

(** C2: when the first response carries an empty tool-call list,
    [process_query] returns that message's content; the trace ends with the
    printing of the response, so no handler is run and the backend is
    called once. *)
Theorem C2_direct_answer (h : host) (model user_query : string) (k : nat) :
  let msg := resp_message (initial_response h model user_query) in
  msg_tool_calls msg = Some (CallList []) ->
  process_query h model user_query (fresh k) =
    (Ret (VStr (msg_content msg)),
     {| trace := opening h model user_query; clock_reads := k |}) /\
  handler_calls (opening h model user_query) = 0%nat /\
  chat_calls (opening h model user_query) = 1%nat.
Proof.
  intros msg Hcalls. split; [|split; reflexivity].
  rewrite process_query_unfold. cbv zeta. fold msg. rewrite Hcalls.
  reflexivity.
Qed.

Lemma C2_direct_answer_witness :
  let h := scripted_host (assistant "Paris." (Some (CallList []))) "unused" in
  msg_tool_calls (resp_message (initial_response h MODEL "Capital of France?"))
    = Some (CallList []) /\
  fst (process_query h MODEL "Capital of France?" (fresh 0)) = Ret (VStr "Paris.").
Proof.
  intros h. split; [reflexivity|].
  destruct (C2_direct_answer h MODEL "Capital of France?" 0 eq_refl) as [Hrun _].
  rewrite Hrun. reflexivity.
Defined.

(** C10: when the tool-call list is not empty but no entry has a
    ["function"] key, every entry is passed over: no handler is run, the
    backend is not called again, and the first message's content is
    returned. *)
Theorem C10_entries_without_function (h : host) (model user_query : string) (k : nat)
        (calls : list tool_call) :
  let msg := resp_message (initial_response h model user_query) in
  msg_tool_calls msg = Some (CallList calls) ->
  calls <> [] ->
  Forall (fun c => tc_function c = None) calls ->
  process_query h model user_query (fresh k) =
    (Ret (VStr (msg_content msg)),
     {| trace := opening h model user_query; clock_reads := k |}) /\
  handler_calls (opening h model user_query) = 0%nat /\
  chat_calls (opening h model user_query) = 1%nat.
Proof.
  intros msg Hcalls Hne Hall. split; [|split; reflexivity].
  rewrite process_query_unfold. cbv zeta. fold msg. rewrite Hcalls.
  destruct calls as [|c cs]; [congruence|].
  rewrite for_tool_calls_all_no_function by assumption.
  reflexivity.
Qed.

Lemma C10_entries_without_function_witness :
  let calls := [ {| tc_function := None |}; {| tc_function := None |} ] in
  let h := scripted_host (assistant "Hello." (Some (CallList calls))) "unused" in
  fst (process_query h MODEL "Hi" (fresh 0)) = Ret (VStr "Hello.").
Proof.
  intros calls h.
  destruct (C10_entries_without_function h MODEL "Hi" 0 calls eq_refl) as [Hrun _].
  - discriminate.
  - repeat constructor.
  - rewrite Hrun. reflexivity.
Defined.

(** C6: when the loop reaches a call naming a tool that is not in the
    table (every earlier entry having been passed over), the lookup raises
    [KeyError], which the [except ValueError] clause does not catch:
    [process_query] raises it to the caller, without a second backend
    call. *)
Theorem C6_unknown_tool_raises (h : host) (model user_query : string) (k : nat)
        (earlier later : list tool_call) (evss : list (list event))
        (c : tool_call) (f : function_call) :
  let msg := resp_message (initial_response h model user_query) in
  msg_tool_calls msg = Some (CallList (earlier ++ c :: later)) ->
  Forall2 (skipped h) earlier evss ->
  tc_function c = Some f ->
  ~ In (fn_name f) (List.map fst (TOOLS h)) ->
  process_query h model user_query (fresh k) =
    (Raise (KeyError (fn_name f)),
     {| trace := opening h model user_query ++ List.concat evss; clock_reads := k |}) /\
  is_ValueError (KeyError (fn_name f)) = false /\
  chat_calls (opening h model user_query ++ List.concat evss) = 1%nat.
Proof.
  intros msg Hcalls Hskip Hf Hnot.
  assert (Hrun : for_tool_calls h model user_query msg (earlier ++ c :: later)
                   (log (fresh k) (opening h model user_query)) =
                 (Raise (KeyError (fn_name f)),
                  {| trace := opening h model user_query ++ List.concat evss;
                     clock_reads := k |})).
  { rewrite (for_tool_calls_skipped_prefix _ _ _ _ _ _ _ _ Hskip).
    rewrite (for_tool_calls_unknown _ _ _ _ _ _ _ _ Hf Hnot).
    rewrite log_log, log_fresh. reflexivity. }
  split; [|split; [reflexivity|]].
  - rewrite process_query_unfold. cbv zeta. fold msg. rewrite Hcalls.
    destruct earlier; cbn [app] in *; rewrite Hrun; reflexivity.
  - rewrite chat_calls_app. change (chat_calls (opening _ _ _)) with 1%nat.
    assert (chat_calls (List.concat evss) = 0%nat); [|lia].
    clear Hrun Hcalls. induction Hskip as [|c0 evs earlier evss Hc _ IH].
    + reflexivity.
    + cbn [List.concat]. rewrite chat_calls_app, IH.
      destruct Hc as [c1 _|c1 cause (f1 & t1 & Hf1 & _)].
      * reflexivity.
      * unfold failure_events. rewrite Hf1. reflexivity.
Qed.

Lemma arithmetic_call_fails (h : host) (expression : string) (cause : exn) :
  evaluate_arithmetic [("expression", VStr expression)] = Raise (ValueError cause) ->
  handler_fails h (arithmetic_call expression) cause.
Proof.
  intros E.
  exists {| fn_name := "evaluate_arithmetic";
            fn_arguments := [("expression", VStr expression)] |}.
  eexists. split; [reflexivity|]. split.
  - intros w. rewrite getitem_TOOLS. reflexivity.
  - intros w. cbn [handler fn_arguments lift]. now rewrite E.
Qed.

Lemma C6_unknown_tool_raises_witness :
  let calls := [ {| tc_function := None |}; arithmetic_call "1/0";
                 named_call "get_weather"; arithmetic_call "1+1" ] in
  let h := scripted_host (assistant "" (Some (CallList calls))) "unused" in
  fst (process_query h MODEL "Weather?" (fresh 0)) = Raise (KeyError "get_weather").
Proof.
  intros calls h.
  destruct (C6_unknown_tool_raises h MODEL "Weather?" 0
              [ {| tc_function := None |}; arithmetic_call "1/0" ]
              [arithmetic_call "1+1"]
              [ []; failure_events (arithmetic_call "1/0") ZeroDivisionError ]
              (named_call "get_weather")
              {| fn_name := "get_weather"; fn_arguments := [] |})
    as [Hrun _].
  - reflexivity.
  - constructor; [apply skipped_no_function; reflexivity|].
    constructor; [|constructor].
    apply skipped_failure, arithmetic_call_fails. vm_compute. reflexivity.
  - reflexivity.
  - cbn. intros [E|[E|[]]]; discriminate E.
  - rewrite Hrun. reflexivity.
Defined.

Lemma failed_calls_skipped (h : host) calls causes :
  Forall2 (handler_fails h) calls causes ->
  Forall2 (skipped h) calls
          (List.map (fun ce => failure_events (fst ce) (snd ce))
                    (List.combine calls causes)).
Proof.
  induction 1 as [|c cause calls causes Hc _ IH]; cbn; constructor; auto.
  now apply skipped_failure.
Qed.

(** C7 (amended): when the handler of every requested tool call fails, each
    failure is printed and the call passed over, in order, and after the
    last one [process_query] returns the content of the first response. *)
Theorem C7_all_handlers_fail (h : host) (model user_query : string) (k : nat)
        (calls : list tool_call) (causes : list exn) :
  let msg := resp_message (initial_response h model user_query) in
  msg_tool_calls msg = Some (CallList calls) ->
  Forall2 (handler_fails h) calls causes ->
  process_query h model user_query (fresh k) =
    (Ret (VStr (msg_content msg)),
     {| trace := opening h model user_query ++ failures_events calls causes;
        clock_reads := k |}).
Proof.
  intros msg Hcalls Hfail.
  pose proof (for_tool_calls_skipped_prefix h model user_query msg calls _ []
                (log (fresh k) (opening h model user_query))
                (failed_calls_skipped h _ _ Hfail)) as Hrun.
  rewrite List.app_nil_r in Hrun. cbn [for_tool_calls] in Hrun.
  rewrite log_log in Hrun.
  rewrite process_query_unfold. cbv zeta. fold msg. rewrite Hcalls.
  destruct calls as [|c cs].
  - inversion Hfail; subst. unfold failures_events.
    cbn [List.combine List.map List.concat]. rewrite List.app_nil_r. reflexivity.
  - rewrite Hrun. reflexivity.
Qed.

Lemma C7_all_handlers_fail_witness :
  let calls := [arithmetic_call "1/0"; arithmetic_call "2+"] in
  let h := scripted_host (assistant "Let me compute." (Some (CallList calls))) "unused" in
  process_query h MODEL "What is 1/0?" (fresh 0) =
    (Ret (VStr "Let me compute."),
     {| trace := opening h MODEL "What is 1/0?" ++
                 failures_events calls [ZeroDivisionError; SyntaxError];
        clock_reads := 0 |}).
Proof.
  intros calls h.
  apply (C7_all_handlers_fail h MODEL "What is 1/0?" 0 calls
           [ZeroDivisionError; SyntaxError]).
  - reflexivity.
  - repeat constructor; apply arithmetic_call_fails; vm_compute; reflexivity.
Defined.

(** C7 as stated fails: with a single requested call whose handler fails,
    [process_query] returns the first message's content, not [None]. *)
Lemma C7_counterexample :
  let calls := [arithmetic_call "1/0"] in
  let h := scripted_host (assistant "Let me compute." (Some (CallList calls))) "unused" in
  Forall2 (handler_fails h) calls [ZeroDivisionError] /\
  fst (process_query h MODEL "What is 1/0?" (fresh 0)) = Ret (VStr "Let me compute.") /\
  fst (process_query h MODEL "What is 1/0?" (fresh 0)) <> Ret VNone.
Proof.
  intros calls h.
  assert (Hrun : fst (process_query h MODEL "What is 1/0?" (fresh 0))
                 = Ret (VStr "Let me compute.")) by (vm_compute; reflexivity).
  split; [|split; [exact Hrun|rewrite Hrun; discriminate]].
  repeat constructor. apply arithmetic_call_fails. vm_compute. reflexivity.
Qed.



(** C5: a first response whose message has no ["tool_calls"] key makes
    [message["tool_calls"]] raise [KeyError]; nothing is returned. *)
Theorem C5_omitted_tool_calls_raises :
  let h := scripted_host (assistant "4" None) "unused" in
  process_query h MODEL "What is 2+2?" (fresh 0) =
    (Raise (KeyError "tool_calls"),
     {| trace := opening h MODEL "What is 2+2?"; clock_reads := 0 |}).
Proof.
  intros h. rewrite process_query_unfold. reflexivity.
Qed.

End QueryClaims.

(* ================================================================== *)
(** * The current-time handler *)

Section TimeClaims.

Import LLMAgent.

Lemma zero_padded_below (width : nat) (bound : N) (n : N) :
  List.forallb (fun i => all_digits width (zero_padded width (N.of_nat i)))
               (List.seq 0 (N.to_nat bound)) = true ->
  (n < bound)%N ->
  all_digits width (zero_padded width n) = true.
Proof.
  intros Hall Hn.
  rewrite List.forallb_forall in Hall.
  specialize (Hall (N.to_nat n)).
  rewrite N2Nat.id in Hall. apply Hall.
  apply List.in_seq. lia.
Qed.

Lemma two_digits (n : N) :
  (n < 100)%N ->
  exists a b, zero_padded 2 n = String a (String b "") /\
              is_digit a = true /\ is_digit b = true.
Proof.
  intros Hn.
  assert (H : all_digits 2 (zero_padded 2 n) = true).
  { apply (zero_padded_below 2 100); [vm_compute; reflexivity|exact Hn]. }
  unfold all_digits in H.
  destruct (zero_padded 2 n) as [|a [|b [|c s]]]; try discriminate H.
  cbn in H. exists a, b.
  destruct (is_digit a), (is_digit b); try discriminate H. auto.
Qed.

Lemma four_digits (n : N) :
  (n < 10000)%N ->
  exists a b c d, zero_padded 4 n = String a (String b (String c (String d ""))) /\
                  is_digit a = true /\ is_digit b = true /\
                  is_digit c = true /\ is_digit d = true.
Proof.
  intros Hn.
  assert (H : all_digits 4 (zero_padded 4 n) = true).
  { apply (zero_padded_below 4 10000); [vm_compute; reflexivity|exact Hn]. }
  unfold all_digits in H.
  destruct (zero_padded 4 n) as [|a [|b [|c [|d [|e s]]]]]; try discriminate H.
  cbn in H. exists a, b, c, d.
  destruct (is_digit a), (is_digit b), (is_digit c), (is_digit d);
    try discriminate H. auto 6.
Qed.

Lemma strftime_time (d : datetime) :
  valid_datetime d -> matches "HH:MM:SS" (strftime "%H:%M:%S" d) = true.
Proof.
  intros (_ & _ & _ & Hh & Hm & Hs).
  destruct (two_digits (hour d)) as (a1 & b1 & E1 & Ha1 & Hb1); [lia|].
  destruct (two_digits (minute d)) as (a2 & b2 & E2 & Ha2 & Hb2); [lia|].
  destruct (two_digits (second d)) as (a3 & b3 & E3 & Ha3 & Hb3); [lia|].
  cbn [strftime directive Ascii.eqb Bool.eqb].
  rewrite E1, E2, E3. cbn [append matches].
  rewrite Ha1, Hb1, Ha2, Hb2, Ha3, Hb3. reflexivity.
Qed.

Lemma strftime_date (d : datetime) :
  valid_datetime d -> matches "YYYY-MM-DD" (strftime "%Y-%m-%d" d) = true.
Proof.
  intros (Hy & Hm & Hd & _).
  destruct (four_digits (year d)) as (a1 & b1 & c1 & d1 & E1 & Ha1 & Hb1 & Hc1 & Hd1);
    [lia|].
  destruct (two_digits (month d)) as (a2 & b2 & E2 & Ha2 & Hb2); [lia|].
  destruct (two_digits (day d)) as (a3 & b3 & E3 & Ha3 & Hb3); [lia|].
  cbn [strftime directive Ascii.eqb Bool.eqb].
  rewrite E1, E2, E3. cbn [append matches].
  rewrite Ha1, Hb1, Hc1, Hd1, Ha2, Hb2, Ha3, Hb3. reflexivity.
Qed.

(** C8: whatever the arguments, [get_current_time] succeeds and returns a
    mapping with [current_time] of the form HH:MM:SS, [current_date] of the
    form YYYY-MM-DD, and [timezone] the local zone's abbreviation, or
    ["UTC"] when there is none; the arguments have no influence on the
    result, and nothing is written to the trace. *)
Theorem C8_get_current_time (h : host) (args : option dict) (w : world) :
  valid_datetime (now h (clock_reads w)) ->
  exists current_time current_date timezone,
    get_current_time h args w =
      (Ret (VDict [("current_time", VStr current_time);
                   ("current_date", VStr current_date);
                   ("timezone", VStr timezone)]),
       {| trace := trace w; clock_reads := S (S (clock_reads w)) |}) /\
    matches "HH:MM:SS" current_time = true /\
    matches "YYYY-MM-DD" current_date = true /\
    (forall zone, tzname h (now h (S (clock_reads w))) = Some zone ->
                  zone <> "" -> timezone = zone) /\
    (tzname h (now h (S (clock_reads w))) = None -> timezone = "UTC") /\
    (forall args', get_current_time h args' w = get_current_time h args w).
Proof.
  intros Hvalid.
  exists (strftime "%H:%M:%S" (now h (clock_reads w))),
         (strftime "%Y-%m-%d" (now h (clock_reads w))),
         (or_default (tzname h (now h (S (clock_reads w)))) "UTC").
  split; [reflexivity|].
  split; [now apply strftime_time|].
  split; [now apply strftime_date|].
  split; [|split].
  - intros zone -> Hne. destruct zone; [congruence|reflexivity].
  - intros ->. reflexivity.
  - reflexivity.
Qed.

Lemma C8_get_current_time_witness :
  let h := scripted_host (assistant "" None) "unused" in
  valid_datetime (now h 0) /\
  exists current_time current_date timezone,
    fst (get_current_time h (Some [("format", VStr "12h")]) (fresh 0)) =
      Ret (VDict [("current_time", VStr current_time);
                  ("current_date", VStr current_date);
                  ("timezone", VStr timezone)]) /\
    matches "HH:MM:SS" current_time = true /\
    matches "YYYY-MM-DD" current_date = true /\
    timezone = "CET".
Proof.
  intros h.
  assert (Hvalid : valid_datetime (now h 0)).
  { unfold valid_datetime; cbn; lia. }
  split; [exact Hvalid|].
  destruct (C8_get_current_time h (Some [("format", VStr "12h")]) (fresh 0) Hvalid)
    as (t & d & z & Hrun & Ht & Hd & Hzone & _).
  exists t, d, z. rewrite Hrun.
  repeat split; auto.
  apply Hzone; [reflexivity|discriminate].
Defined.

End TimeClaims.

(* ================================================================== *)
(** * The parser on well-formed expressions *)

Section ParserFacts.

Import Arith PyEval.
Local Open Scope list_scope.

Lemma parse_sum_S n ts :
  parse_sum (S n) ts = ('(t, ts1) <- parse_term n ts ;; parse_sum_rest n t ts1).
Proof. reflexivity. Qed.

Lemma parse_term_S n ts :
  parse_term (S n) ts = ('(f, ts1) <- parse_factor n ts ;; parse_term_rest n f ts1).
Proof. reflexivity. Qed.

Lemma parse_primary_S n ts :
  parse_primary (S n) ts = ('(a, ts1) <- parse_atom n ts ;; parse_trailers n a ts1).
Proof. reflexivity. Qed.

Lemma parse_power_S n ts :
  parse_power (S n) ts =
  ('(p, ts1) <- parse_primary n ts ;;
   match ts1 with
   | TDoubleStar :: ts2 => '(f, ts3) <- parse_factor n ts2 ;; Ret (BinOp p Pow f, ts3)
   | _ => Ret (p, ts1)
   end).
Proof. reflexivity. Qed.

Lemma parse_sum_rest_stop n acc ts :
  stop_sum ts -> parse_sum_rest (S n) acc ts = Ret (acc, ts).
Proof. destruct ts as [|[] ts]; cbn; tauto. Qed.

Lemma parse_term_rest_stop n acc ts :
  stop_term ts -> parse_term_rest (S n) acc ts = Ret (acc, ts).
Proof. destruct ts as [|[] ts]; cbn; tauto. Qed.

Lemma parse_trailers_stop n acc ts :
  stop_trailers ts -> parse_trailers (S n) acc ts = Ret (acc, ts).
Proof. destruct ts as [|[] ts]; cbn; tauto. Qed.

Lemma parse_factor_power n ts :
  starts_atom ts -> parse_factor (S n) ts = parse_power n ts.
Proof. destruct ts as [|[] ts]; cbn; tauto. Qed.

Lemma parse_atom_paren n ts :
  starts_factor ts ->
  parse_atom (S n) (TLParen :: ts) = ('(e, ts2) <- parse_sum n ts ;; expect_rparen e ts2).
Proof. destruct ts as [|[] ts]; cbn; tauto. Qed.

Lemma stop_sum_term ts : stop_sum ts -> stop_term ts.
Proof. destruct ts as [|[] ts]; cbn; tauto. Qed.

Lemma stop_term_power ts : stop_term ts -> stop_power ts.
Proof. destruct ts as [|[] ts]; cbn; tauto. Qed.

Lemma stop_power_trailers ts : stop_power ts -> stop_trailers ts.
Proof. destruct ts as [|[] ts]; cbn; tauto. Qed.

Lemma starts_atom_factor ts : starts_atom ts -> starts_factor ts.
Proof. destruct ts as [|[] ts]; cbn; tauto. Qed.

(** How the tokens of each kind of expression start. *)
Lemma tokens_start :
  (forall s rest, starts_factor (tokens_sum s ++ rest)) /\
  (forall t rest, starts_factor (tokens_term t ++ rest)) /\
  (forall f rest, starts_factor (tokens_factor f ++ rest)) /\
  (forall p rest, starts_atom (tokens_power p ++ rest)) /\
  (forall a rest, starts_atom (tokens_atom a ++ rest)).
Proof.
  apply arith_mutind; intros; cbn [tokens_sum tokens_term tokens_factor
                                   tokens_power tokens_atom];
    rewrite <- ?List.app_assoc; auto using starts_atom_factor; exact I.
Qed.

Lemma need_atom_pos a : (1 <= need_atom a)%nat.
Proof. destruct a; cbn; lia. Qed.

(** The descent recovers the syntax tree of an expression, given the fuel
    it needs.  For sums and terms the statement stops where the loop over
    the remaining operators takes over. *)
Lemma parse_tokens :
  (forall s n rest, (need_sum s <= n)%nat -> stop_term rest ->
     parse_sum n (tokens_sum s ++ rest) =
     parse_sum_rest (n - 1 - ops_sum s) (ast_sum s) rest) /\
  (forall t n rest, (need_term t <= n)%nat -> stop_power rest ->
     parse_term n (tokens_term t ++ rest) =
     parse_term_rest (n - 1 - ops_term t) (ast_term t) rest) /\
  (forall f n rest, (need_factor f <= n)%nat -> stop_power rest ->
     parse_factor n (tokens_factor f ++ rest) = Ret (ast_factor f, rest)) /\
  (forall p n rest, (need_power p <= n)%nat -> stop_power rest ->
     parse_power n (tokens_power p ++ rest) = Ret (ast_power p, rest)) /\
  (forall a n rest, (need_atom a <= n)%nat ->
     parse_atom n (tokens_atom a ++ rest) = Ret (ast_atom a, rest)).
Proof.
  destruct tokens_start as (start_sum & start_term & start_factor & start_power & start_atom).
  apply arith_mutind.
  - (* S_term *)
    intros t IHt n rest Hn Hstop. cbn [need_sum] in Hn.
    destruct n as [|n]; [lia|].
    cbn [tokens_sum ast_sum ops_sum].
    rewrite parse_sum_S, IHt by (auto using stop_term_power; lia).
    replace (n - 1 - ops_term t)%nat with (S (n - 2 - ops_term t)) by lia.
    rewrite parse_term_rest_stop by assumption.
    cbn [bind]. f_equal. lia.
  - (* S_add *)
    intros s IHs t IHt n rest Hn Hstop. cbn [need_sum] in Hn.
    cbn [tokens_sum ast_sum ops_sum]. rewrite <- List.app_assoc.
    rewrite IHs by (cbn; auto; lia).
    replace (n - 1 - ops_sum s)%nat with (S (n - 2 - ops_sum s)) by lia.
    cbn [app parse_sum_rest].
    rewrite IHt by (auto using stop_term_power; lia).
    replace (n - 2 - ops_sum s - 1 - ops_term t)%nat
      with (S (n - 2 - ops_sum s - 2 - ops_term t)) by lia.
    rewrite parse_term_rest_stop by assumption.
    cbn [bind]. f_equal. lia.
  - (* S_sub *)
    intros s IHs t IHt n rest Hn Hstop. cbn [need_sum] in Hn.
    cbn [tokens_sum ast_sum ops_sum]. rewrite <- List.app_assoc.
    rewrite IHs by (cbn; auto; lia).
    replace (n - 1 - ops_sum s)%nat with (S (n - 2 - ops_sum s)) by lia.
    cbn [app parse_sum_rest].
    rewrite IHt by (auto using stop_term_power; lia).
    replace (n - 2 - ops_sum s - 1 - ops_term t)%nat
      with (S (n - 2 - ops_sum s - 2 - ops_term t)) by lia.
    rewrite parse_term_rest_stop by assumption.
    cbn [bind]. f_equal. lia.
  - (* T_factor *)
    intros f IHf n rest Hn Hstop. cbn [need_term] in Hn.
    destruct n as [|n]; [lia|].
    cbn [tokens_term ast_term ops_term].
    rewrite parse_term_S, IHf by (auto; lia).
    cbn [bind]. f_equal. lia.
  - (* T_mul *)
    intros t IHt f IHf n rest Hn Hstop. cbn [need_term] in Hn.
    cbn [tokens_term ast_term ops_term]. rewrite <- List.app_assoc.
    rewrite IHt by (cbn; auto; lia).
    replace (n - 1 - ops_term t)%nat with (S (n - 2 - ops_term t)) by lia.
    cbn [app parse_term_rest].
    rewrite IHf by (auto; lia).
    cbn [bind]. f_equal. lia.
  - (* T_div *)
    intros t IHt f IHf n rest Hn Hstop. cbn [need_term] in Hn.
    cbn [tokens_term ast_term ops_term]. rewrite <- List.app_assoc.
    rewrite IHt by (cbn; auto; lia).
    replace (n - 1 - ops_term t)%nat with (S (n - 2 - ops_term t)) by lia.
    cbn [app parse_term_rest].
    rewrite IHf by (auto; lia).
    cbn [bind]. f_equal. lia.
  - (* F_power *)
    intros p IHp n rest Hn Hstop. cbn [need_factor] in Hn.
    destruct n as [|n]; [lia|].
    cbn [tokens_factor ast_factor].
    rewrite parse_factor_power by apply start_power.
    apply IHp; auto; lia.
  - (* F_neg *)
    intros f IHf n rest Hn Hstop. cbn [need_factor] in Hn.
    destruct n as [|n]; [lia|].
    cbn [tokens_factor ast_factor app parse_factor].
    rewrite IHf by (auto; lia). reflexivity.
  - (* F_pos *)
    intros f IHf n rest Hn Hstop. cbn [need_factor] in Hn.
    destruct n as [|n]; [lia|].
    cbn [tokens_factor ast_factor app parse_factor].
    rewrite IHf by (auto; lia). reflexivity.
  - (* P_atom *)
    intros a IHa n rest Hn Hstop. cbn [need_power] in Hn.
    pose proof (need_atom_pos a).
    destruct n as [|[|[|n]]]; [lia|lia|lia|].
    cbn [tokens_power ast_power].
    rewrite parse_power_S, parse_primary_S, IHa by lia.
    cbn [bind]. rewrite parse_trailers_stop by auto using stop_power_trailers.
    cbn [bind]. destruct rest as [|[] rest]; cbn in Hstop; try tauto; reflexivity.
  - (* P_pow *)
    intros a IHa f IHf n rest Hn Hstop. cbn [need_power] in Hn.
    pose proof (need_atom_pos a).
    destruct n as [|[|[|n]]]; [lia|lia|lia|].
    cbn [tokens_power ast_power]. rewrite <- List.app_assoc.
    rewrite parse_power_S, parse_primary_S, IHa by lia.
    cbn [bind app]. rewrite parse_trailers_stop by exact I.
    cbn [bind]. rewrite IHf by (auto; lia). reflexivity.
  - (* A_num *)
    intros k n rest Hn. cbn [need_atom] in Hn.
    destruct n as [|n]; [lia|]. reflexivity.
  - (* A_paren *)
    intros s IHs n rest Hn. cbn [need_atom] in Hn.
    destruct n as [|n]; [lia|].
    cbn [tokens_atom ast_atom app]. rewrite <- List.app_assoc.
    rewrite parse_atom_paren by apply start_sum.
    rewrite IHs by (cbn; auto; lia).
    replace (n - 1 - ops_sum s)%nat with (S (n - 2 - ops_sum s)) by lia.
    cbn [app]. rewrite parse_sum_rest_stop by exact I. reflexivity.
Qed.

(** Eight units of fuel per token are enough. *)
Lemma need_bound :
  (forall s, (need_sum s + 2 <= 8 * List.length (tokens_sum s))%nat /\
             (ops_sum s + 1 <= List.length (tokens_sum s))%nat) /\
  (forall t, (need_term t + 3 <= 8 * List.length (tokens_term t))%nat /\
             (ops_term t + 1 <= List.length (tokens_term t))%nat) /\
  (forall f, (need_factor f + 4 <= 8 * List.length (tokens_factor f))%nat) /\
  (forall p, (need_power p + 5 <= 8 * List.length (tokens_power p))%nat) /\
  (forall a, (need_atom a + 7 <= 8 * List.length (tokens_atom a))%nat).
Proof.
  apply arith_mutind; intros;
    cbn [need_sum need_term need_factor need_power need_atom ops_sum ops_term
         tokens_sum tokens_term tokens_factor tokens_power tokens_atom];
    rewrite ?List.length_app; cbn [List.length]; rewrite ?List.length_app;
    cbn [List.length];
    repeat match goal with H : _ /\ _ |- _ => destruct H end;
    try split; lia.
Qed.

(** Parsing the tokens of an expression gives its syntax tree. *)
Lemma parse_tokens_sum (s : sum) : parse (tokens_sum s) = Ret (ast_sum s).
Proof.
  destruct parse_tokens as (Hsum & _).
  destruct need_bound as (Hneed & _). destruct (Hneed s) as [Hn Ho].
  unfold parse.
  rewrite <- (List.app_nil_r (tokens_sum s)) at 2.
  rewrite Hsum by (cbn; auto; lia).
  replace (8 * List.length (tokens_sum s) + 8 - 1 - ops_sum s)%nat
    with (S (8 * List.length (tokens_sum s) + 6 - ops_sum s)) by lia.
  rewrite parse_sum_rest_stop by exact I. reflexivity.
Qed.


End ParserFacts.

(* ================================================================== *)
(** * The tokenizer *)

Section TokenizerFacts.

Import PyEval.

Lemma append_assoc (a b c : string) : (a ++ b) ++ c = a ++ (b ++ c).
Proof. induction a as [|x a IH]; cbn; [reflexivity|now rewrite IH]. Qed.

Lemma append_empty_r (a : string) : a ++ "" = a.
Proof. induction a as [|x a IH]; cbn; [reflexivity|now rewrite IH]. Qed.

Lemma span_shorter p s :
  (String.length (snd (Str.span p s)) <= String.length s)%nat.
Proof.
  induction s as [|c s IH]; cbn; [lia|].
  destruct (p c); [|cbn; lia].
  destruct (Str.span p s) as [a b]. cbn in *. lia.
Qed.

Lemma lstrip_shorter s : (String.length (lstrip s) <= String.length s)%nat.
Proof.
  induction s as [|c s IH]; cbn; [lia|].
  destruct (is_space c); cbn; lia.
Qed.

(** A token consumes at least one character. *)
Lemma next_token_shorter s t rest :
  next_token s = LTok t rest -> (String.length rest < String.length s)%nat.
Proof.
  unfold next_token.
  pose proof (lstrip_shorter s) as Hstrip.
  destruct (lstrip s) as [|c s']; [discriminate|].
  cbn [String.length] in Hstrip.
  destruct (is_digit c) eqn:Hdigit.
  { pose proof (span_shorter is_numchar s') as Hspan.
    cbn [Str.span]. unfold is_numchar at 1. rewrite Hdigit. cbn [orb].
    destruct (Str.span is_numchar s') as [run rest0]. cbn [snd] in Hspan.
    destruct rest0 as [|c' rest0].
    - destruct (valid_decimal _); [|discriminate]. intros [= <- <-]. cbn. lia.
    - destruct (is_alpha c' || Ascii.eqb c' "."); [discriminate|].
      destruct (valid_decimal _); [|discriminate]. intros [= <- <-]. lia. }
  destruct (is_idstart c) eqn:Hid.
  { pose proof (span_shorter is_idchar s') as Hspan.
    cbn [Str.span].
    assert (Hc : is_idchar c = true).
    { unfold is_idstart in Hid. unfold is_idchar.
      destruct (is_alpha c), (is_underscore c), (is_digit c); auto; discriminate. }
    rewrite Hc.
    destruct (Str.span is_idchar s') as [id rest0]. cbn [snd] in Hspan.
    destruct (mem _ _ || mem _ _); [discriminate|]. intros [= <- <-]. lia. }
  destruct (Ascii.eqb c "+"); [intros [= <- <-]; lia|].
  destruct (Ascii.eqb c "-"); [intros [= <- <-]; lia|].
  destruct (Ascii.eqb c "("); [intros [= <- <-]; lia|].
  destruct (Ascii.eqb c ")"); [intros [= <- <-]; lia|].
  destruct (Ascii.eqb c "*").
  { destruct s' as [|c' s'']; [intros [= <- <-]; cbn; lia|].
    destruct (Ascii.eqb_spec c' "*") as [->|Hne].
    - intros [= <- <-]. cbn in *. lia.
    - assert (E : match String c' s'' with
                  | String "*" s''0 => LTok TDoubleStar s''0
                  | _ => LTok TStar (String c' s'')
                  end = LTok TStar (String c' s'')).
      { destruct c' as [[] [] [] [] [] [] [] []]; try reflexivity.
        now elim Hne. }
      rewrite E. intros [= <- <-]. lia. }
  destruct (Ascii.eqb c "/").
  { destruct s' as [|c' s'']; [intros [= <- <-]; cbn; lia|].
    destruct (Ascii.eqb_spec c' "/") as [->|Hne].
    - intros [= <- <-]. cbn in *. lia.
    - assert (E : match String c' s'' with
                  | String "/" s''0 => LTok TDoubleSlash s''0
                  | _ => LTok TSlash (String c' s'')
                  end = LTok TSlash (String c' s'')).
      { destruct c' as [[] [] [] [] [] [] [] []]; try reflexivity.
        now elim Hne. }
      rewrite E. intros [= <- <-]. lia. }
  destruct (Ascii.eqb c ".").
  { destruct s' as [|c' s'']; [intros [= <- <-]; cbn; lia|].
    destruct (is_digit c' || Ascii.eqb c' "."); [discriminate|].
    intros [= <- <-]. lia. }
  discriminate.
Qed.

Lemma tokenize_fuel_stable n m s :
  (String.length s < n)%nat -> (String.length s < m)%nat ->
  tokenize_fuel n s = tokenize_fuel m s.
Proof.
  revert m s; induction n as [|n IH]; intros m s Hn Hm; [lia|].
  destruct m as [|m]; [lia|].
  cbn [tokenize_fuel].
  destruct (next_token s) as [|t rest| |] eqn:E; try reflexivity.
  apply next_token_shorter in E.
  rewrite (IH m rest) by lia. reflexivity.
Qed.

(** The tokenizer, one token at a time. *)
Lemma tokenize_unfold s :
  tokenize s =
  match next_token s with
  | LEnd => Ret []
  | LTok t rest => ts <- tokenize rest ;; Ret (t :: ts)
  | LSyntaxError => Raise SyntaxError
  | LUnmodelled => Unmodelled
  end.
Proof.
  unfold tokenize at 1. cbn [tokenize_fuel].
  destruct (next_token s) as [|t rest| |] eqn:E; try reflexivity.
  apply next_token_shorter in E.
  unfold tokenize. rewrite (tokenize_fuel_stable (String.length s) (S (String.length rest)))
    by lia.
  reflexivity.
Qed.

(** *** Decimal literals *)

Lemma digit_char (c : ascii) :
  is_digit c = true ->
  is_space c = false /\ is_underscore c = false /\ is_alpha c = false /\
  Ascii.eqb c "^" = false /\ Ascii.eqb c "*" = false /\ Ascii.eqb c "/" = false.
Proof.
  destruct c as [[] [] [] [] [] [] [] []]; cbv; intros H;
    try discriminate H; repeat split.
Qed.

Lemma string_of_uint_digits (d : Decimal.uint) :
  Str.forallb is_digit (NilEmpty.string_of_uint d) = true.
Proof. induction d; cbn [NilEmpty.string_of_uint Str.forallb]; auto. Qed.

Lemma to_uint_not_nil (n : N) : N.to_uint n <> Decimal.Nil.
Proof.
  destruct n as [|p]; [discriminate|].
  apply DecimalPos.Unsigned.to_uint_nonnil.
Qed.

Lemma str_N_digits (n : N) : str_N n = NilEmpty.string_of_uint (N.to_uint n).
Proof.
  unfold str_N, NilZero.string_of_uint.
  pose proof (to_uint_not_nil n).
  destruct (N.to_uint n); congruence.
Qed.

(** A numeral that starts with zero is zero. *)
Lemma to_uint_leading_zero (n : N) (d : Decimal.uint) :
  N.to_uint n = Decimal.D0 d -> d = Decimal.Nil.
Proof.
  intros E.
  pose proof (DecimalN.Unsigned.to_of (N.to_uint n)) as Hnorm.
  rewrite DecimalN.Unsigned.of_to, E in Hnorm.
  rewrite DecimalFacts.unorm_D0 in Hnorm.
  unfold Decimal.unorm in Hnorm.
  destruct (Decimal.nzhead d) eqn:Hhead;
    try (exfalso; symmetry in Hnorm; revert Hnorm; rewrite <- Hhead;
         apply DecimalFacts.nzhead_nonzero).
  now injection Hnorm as <-.
Qed.

Lemma digits_underscores_ok (s : string) :
  Str.forallb is_digit s = true -> underscores_ok s = true.
Proof.
  induction s as [|c s IH]; [reflexivity|].
  cbn [Str.forallb underscores_ok]. intros H.
  apply andb_true_iff in H as [Hc Hs].
  destruct (digit_char c Hc) as (_ & -> & _). cbn [andb]. now apply IH.
Qed.

Lemma digits_filter (s : string) :
  Str.forallb is_digit s = true -> Str.filter is_digit s = s.
Proof.
  induction s as [|c s IH]; [reflexivity|].
  cbn [Str.forallb Str.filter]. intros H.
  apply andb_true_iff in H as [Hc Hs]. rewrite Hc. now rewrite IH.
Qed.

Lemma str_N_forallb (n : N) : Str.forallb is_digit (str_N n) = true.
Proof. rewrite str_N_digits. apply string_of_uint_digits. Qed.

Lemma str_N_valid (n : N) : valid_decimal (str_N n) = true.
Proof.
  unfold valid_decimal.
  rewrite digits_underscores_ok by apply str_N_forallb.
  unfold digits_of. rewrite digits_filter by apply str_N_forallb.
  rewrite str_N_digits.
  destruct (N.to_uint n) as [|d|d|d|d|d|d|d|d|d|d] eqn:E; try reflexivity.
  apply to_uint_leading_zero in E. subst d. reflexivity.
Qed.

Lemma str_N_value (n : N) : decimal_value (str_N n) = n.
Proof.
  unfold decimal_value, digits_of.
  rewrite digits_filter by apply str_N_forallb.
  rewrite str_N_digits, NilEmpty.usu.
  apply DecimalN.Unsigned.of_to.
Qed.

Lemma str_N_head (n : N) :
  exists c s, str_N n = String c s /\ is_digit c = true.
Proof.
  pose proof (str_N_forallb n) as H.
  rewrite str_N_digits in *.
  pose proof (to_uint_not_nil n) as Hnil.
  destruct (N.to_uint n); try congruence;
    cbn [NilEmpty.string_of_uint] in *; eexists _, _; split; reflexivity.
Qed.

Lemma span_app (p : ascii -> bool) (a rest : string) :
  Str.forallb p a = true ->
  match rest with EmptyString => True | String c _ => p c = false end ->
  Str.span p (a ++ rest) = (a, rest).
Proof.
  intros Ha Hrest. induction a as [|c a IH].
  - cbn. destruct rest as [|c rest]; [reflexivity|]. cbn. now rewrite Hrest.
  - cbn [Str.forallb] in Ha. apply andb_true_iff in Ha as [Hc Ha].
    cbn [append Str.span]. rewrite Hc, (IH Ha). reflexivity.
Qed.

Lemma next_token_number (n : N) (rest : string) :
  num_stop rest -> next_token (str_N n ++ rest) = LTok (TNum n) rest.
Proof.
  intros Hstop.
  destruct (str_N_head n) as (c & s0 & E & Hc).
  destruct (digit_char c Hc) as (Hspace & _).
  unfold next_token. rewrite E. cbn [append lstrip]. rewrite Hspace, Hc.
  change (String c (s0 ++ rest)) with (String c s0 ++ rest). rewrite <- E.
  rewrite (span_app is_numchar).
  - rewrite str_N_valid, str_N_value.
    destruct rest as [|c' rest]; [reflexivity|].
    cbn [num_stop] in Hstop. unfold is_idchar in Hstop.
    destruct (is_alpha c'); [discriminate Hstop|].
    destruct (Ascii.eqb c' "."); [|reflexivity].
    destruct (is_digit c'), (is_underscore c'); discriminate Hstop.
  - pose proof (str_N_forallb n) as H. clear E.
    induction (str_N n) as [|x s IH]; [reflexivity|].
    cbn [Str.forallb] in *. apply andb_true_iff in H as [Hx Hs].
    unfold is_numchar at 1. rewrite Hx. cbn [orb andb]. now apply IH.
  - destruct rest as [|c' rest]; [exact I|].
    cbn [num_stop] in Hstop. unfold is_idchar in Hstop. unfold is_numchar.
    destruct (is_alpha c'), (is_digit c'), (is_underscore c');
      try discriminate Hstop; reflexivity.
Qed.

(** *** The text of an expression *)

Import Arith.

Lemma replace_app (a b : string) :
  carets_replaced (a ++ b) = carets_replaced a ++ carets_replaced b.
Proof.
  unfold carets_replaced.
  induction a as [|c a IH]; [reflexivity|].
  cbn [append Str.replace]. rewrite IH.
  destruct (Ascii.eqb c "^"); reflexivity.
Qed.

Lemma replace_digits (s : string) :
  Str.forallb is_digit s = true -> carets_replaced s = s.
Proof.
  unfold carets_replaced.
  induction s as [|c s IH]; [reflexivity|].
  cbn [Str.forallb Str.replace]. intros H.
  apply andb_true_iff in H as [Hc Hs].
  destruct (digit_char c Hc) as (_ & _ & _ & -> & _). now rewrite IH.
Qed.

Lemma first_ok_app (a b : string) : first_ok a -> first_ok (a ++ b).
Proof. destruct a; [intros []|exact (fun H => H)]. Qed.

Lemma render_first_ok :
  (forall s, first_ok (carets_replaced (render_sum s))) /\
  (forall t, first_ok (carets_replaced (render_term t))) /\
  (forall f, first_ok (carets_replaced (render_factor f))) /\
  (forall p, first_ok (carets_replaced (render_power p))) /\
  (forall a, first_ok (carets_replaced (render_atom a))).
Proof.
  apply arith_mutind; intros;
    cbn [render_sum render_term render_factor render_power render_atom];
    rewrite ?replace_app; auto using first_ok_app;
    try (cbn; tauto).
  (* literal *)
  rewrite replace_digits by apply str_N_forallb.
  destruct (str_N_head n) as (c & s0 & -> & Hc). cbn. auto.
Qed.

Lemma next_token_star (s : string) :
  first_ok s -> next_token (String "*" s) = LTok TStar s.
Proof.
  destruct s as [|c s]; [intros []|].
  intros [Hc | [-> | [-> | ->]]]; try reflexivity.
  destruct c as [[] [] [] [] [] [] [] []]; try discriminate Hc; reflexivity.
Qed.

Lemma next_token_slash (s : string) :
  first_ok s -> next_token (String "/" s) = LTok TSlash s.
Proof.
  destruct s as [|c s]; [intros []|].
  intros [Hc | [-> | [-> | ->]]]; try reflexivity.
  destruct c as [[] [] [] [] [] [] [] []]; try discriminate Hc; reflexivity.
Qed.

Lemma tokenize_cons (c : ascii) (s : string) (t : token) (toks : list token) :
  next_token (String c s) = LTok t s ->
  tokenize s = Ret toks ->
  tokenize (String c s) = Ret (t :: toks).
Proof. intros Hnext Hs. now rewrite tokenize_unfold, Hnext, Hs. Qed.

Lemma tokenize_double_star (s : string) (toks : list token) :
  tokenize s = Ret toks ->
  tokenize (String "*" (String "*" s)) = Ret (TDoubleStar :: toks).
Proof.
  intros Hs. rewrite tokenize_unfold.
  change (next_token (String "*" (String "*" s))) with (LTok TDoubleStar s).
  cbv beta iota. now rewrite Hs.
Qed.

(** The tokenizer reads the text of an expression, carets replaced, as
    the expression's tokens. *)
Lemma tokenize_render :
  (forall s rest toks, num_stop rest -> tokenize rest = Ret toks ->
     tokenize (carets_replaced (render_sum s) ++ rest) = Ret (tokens_sum s ++ toks)%list) /\
  (forall t rest toks, num_stop rest -> tokenize rest = Ret toks ->
     tokenize (carets_replaced (render_term t) ++ rest) = Ret (tokens_term t ++ toks)%list) /\
  (forall f rest toks, num_stop rest -> tokenize rest = Ret toks ->
     tokenize (carets_replaced (render_factor f) ++ rest) = Ret (tokens_factor f ++ toks)%list) /\
  (forall p rest toks, num_stop rest -> tokenize rest = Ret toks ->
     tokenize (carets_replaced (render_power p) ++ rest) = Ret (tokens_power p ++ toks)%list) /\
  (forall a rest toks, num_stop rest -> tokenize rest = Ret toks ->
     tokenize (carets_replaced (render_atom a) ++ rest) = Ret (tokens_atom a ++ toks)%list).
Proof.
  destruct render_first_ok as (_ & _ & first_factor & _).
  apply arith_mutind.
  - intros t IHt rest toks Hstop Hrest. now apply IHt.
  - (* s + t *)
    intros s IHs t IHt rest toks Hstop Hrest.
    cbn [render_sum tokens_sum]. rewrite !replace_app, !append_assoc, <- List.app_assoc.
    apply IHs; [reflexivity|].
    apply tokenize_cons; [reflexivity|]. now apply IHt.
  - (* s - t *)
    intros s IHs t IHt rest toks Hstop Hrest.
    cbn [render_sum tokens_sum]. rewrite !replace_app, !append_assoc, <- List.app_assoc.
    apply IHs; [reflexivity|].
    apply tokenize_cons; [reflexivity|]. now apply IHt.
  - intros f IHf rest toks Hstop Hrest. now apply IHf.
  - (* t * f *)
    intros t IHt f IHf rest toks Hstop Hrest.
    cbn [render_term tokens_term]. rewrite !replace_app, !append_assoc, <- List.app_assoc.
    apply IHt; [reflexivity|].
    apply tokenize_cons; [|now apply IHf].
    apply next_token_star, first_ok_app, first_factor.
  - (* t / f *)
    intros t IHt f IHf rest toks Hstop Hrest.
    cbn [render_term tokens_term]. rewrite !replace_app, !append_assoc, <- List.app_assoc.
    apply IHt; [reflexivity|].
    apply tokenize_cons; [|now apply IHf].
    apply next_token_slash, first_ok_app, first_factor.
  - intros p IHp rest toks Hstop Hrest. now apply IHp.
  - (* - f *)
    intros f IHf rest toks Hstop Hrest.
    cbn [render_factor tokens_factor]. rewrite !replace_app, !append_assoc.
    apply tokenize_cons; [reflexivity|]. now apply IHf.
  - (* + f *)
    intros f IHf rest toks Hstop Hrest.
    cbn [render_factor tokens_factor]. rewrite !replace_app, !append_assoc.
    apply tokenize_cons; [reflexivity|]. now apply IHf.
  - intros a IHa rest toks Hstop Hrest. now apply IHa.
  - (* a ^ f *)
    intros a IHa f IHf rest toks Hstop Hrest.
    cbn [render_power tokens_power]. rewrite !replace_app, !append_assoc, <- List.app_assoc.
    apply IHa; [reflexivity|].
    apply (tokenize_double_star (carets_replaced (render_factor f) ++ rest)).
    now apply IHf.
  - (* literal *)
    intros n rest toks Hstop Hrest.
    cbn [render_atom tokens_atom]. rewrite replace_digits by apply str_N_forallb.
    now rewrite tokenize_unfold, next_token_number, Hrest.
  - (* ( s ) *)
    intros s IHs rest toks Hstop Hrest.
    cbn [render_atom tokens_atom]. rewrite !replace_app, !append_assoc.
    cbn [app]. rewrite <- List.app_assoc.
    apply tokenize_cons; [reflexivity|].
    apply IHs; [reflexivity|].
    apply tokenize_cons; [reflexivity|]. exact Hrest.
Qed.

Lemma tokenize_render_sum (s : sum) :
  tokenize (carets_replaced (render_sum s)) = Ret (tokens_sum s).
Proof.
  destruct tokenize_render as (Hsum & _).
  rewrite <- (append_empty_r (carets_replaced (render_sum s))).
  rewrite <- (List.app_nil_r (tokens_sum s)).
  apply Hsum; [exact I|reflexivity].
Qed.

End TokenizerFacts.

(* ================================================================== *)
(** * The arithmetic handler *)

Section ArithmeticClaims.

Import Arith PyEval LLMAgent.

Lemma evaluate_arithmetic_source (args : dict) (expression : string) :
  dict_lookup args "expression" = Some (VStr expression) ->
  evaluate_arithmetic args =
  match (e <- source_tree expression ;; eval_expr sandbox_globals e) with
  | Ret v => Ret v
  | Raise x => Raise (ValueError x)
  | Unmodelled => Unmodelled
  end.
Proof.
  intros Hlookup. unfold evaluate_arithmetic, dict_get. rewrite Hlookup.
  unfold PyEval.eval, source_tree.
  destruct (tokenize _) as [ts| |]; try reflexivity.
Qed.








End ArithmeticClaims.

(* ================================================================== *)
(** * More on the arithmetic handler *)

Section ArithmeticFacts.

Import Arith ArithOutcome PyEval LLMAgent.

Lemma eval_combine (op : operator) (f : Z -> Z -> verdict) (x y : verdict) :
  (forall a b, eval_operator op (VInt a) (VInt b) = verdict_result (f a b)) ->
  (a <- verdict_result x ;; b <- verdict_result y ;; eval_operator op a b)
  = verdict_result (combine f x y).
Proof.
  intros Hop. destruct x as [a| |]; [|reflexivity|reflexivity].
  destruct y as [b| |]; [|reflexivity|reflexivity].
  cbn [verdict_result bind combine]. apply Hop.
Qed.

(** The evaluator follows the left-to-right reading of an expression. *)
Lemma eval_verdict (globals : dict) :
  (forall s, eval_expr globals (ast_sum s) = verdict_result (sum_verdict s)) /\
  (forall t, eval_expr globals (ast_term t) = verdict_result (term_verdict t)) /\
  (forall f, eval_expr globals (ast_factor f) = verdict_result (factor_verdict f)) /\
  (forall p, eval_expr globals (ast_power p) = verdict_result (power_verdict p)) /\
  (forall a, eval_expr globals (ast_atom a) = verdict_result (atom_verdict a)).
Proof.
  apply arith_mutind;
    cbn [ast_sum ast_term ast_factor ast_power ast_atom eval_expr
         sum_verdict term_verdict factor_verdict power_verdict atom_verdict];
    intros; auto;
    repeat match goal with H : eval_expr _ _ = _ |- _ => rewrite H; clear H end.
  - apply eval_combine. reflexivity.
  - apply eval_combine. reflexivity.
  - apply eval_combine. reflexivity.
  - apply eval_combine. intros a b. unfold eval_operator, divide. cbn [as_int].
    destruct (b =? 0); reflexivity.
  - destruct (factor_verdict f); reflexivity.
  - destruct (factor_verdict f); reflexivity.
  - apply eval_combine. intros a0 b. unfold eval_operator, raise_to. cbn [as_int].
    destruct (0 <=? b); [reflexivity|]. destruct (a0 =? 0); reflexivity.
Qed.

(** The handler on the text of a well-formed expression. *)
Lemma evaluate_arithmetic_render (args : dict) (e : sum) :
  dict_lookup args "expression" = Some (VStr (render_sum e)) ->
  evaluate_arithmetic args =
  match sum_verdict e with
  | Value z => Ret (VInt z)
  | DivisionByZero => Raise (ValueError ZeroDivisionError)
  | NotInteger => Unmodelled
  end.
Proof.
  intros Hlookup.
  rewrite (evaluate_arithmetic_source _ _ Hlookup).
  unfold source_tree.
  change (Str.replace "^" "**" (render_sum e)) with (carets_replaced (render_sum e)).
  rewrite tokenize_render_sum. cbn [bind].
  rewrite parse_tokens_sum. cbn [bind].
  destruct (eval_verdict sandbox_globals) as (Hsum & _).
  rewrite Hsum. destruct (sum_verdict e); reflexivity.
Qed.

(** X1: without an ["expression"] key the handler evaluates the empty
    text, which is a syntax error: it raises [ValueError]. *)
Theorem X1_missing_expression (args : dict) :
  dict_lookup args "expression" = None ->
  evaluate_arithmetic args = Raise (ValueError SyntaxError).
Proof.
  intros Hlookup. unfold evaluate_arithmetic, dict_get. rewrite Hlookup.
  reflexivity.
Qed.

Lemma X1_missing_expression_witness :
  evaluate_arithmetic [("format", VStr "24h")] = Raise (ValueError SyntaxError).
Proof. apply X1_missing_expression. reflexivity. Defined.

Lemma replace_idempotent (s : string) :
  Str.replace "^" "**" (Str.replace "^" "**" s) = Str.replace "^" "**" s.
Proof.
  induction s as [|c s IH]; [reflexivity|].
  cbn [Str.replace].
  destruct (Ascii.eqb c "^") eqn:E.
  - cbn [append Str.replace Ascii.eqb Bool.eqb]. now rewrite IH.
  - cbn [Str.replace]. now rewrite E, IH.
Qed.

(** X2: an expression written with [^] and the same expression written
    with [**] get the same answer from the handler, whatever it is. *)
Theorem X2_caret_is_power (args : dict) (expression : string) :
  dict_lookup args "expression" = Some (VStr expression) ->
  evaluate_arithmetic args =
  evaluate_arithmetic [("expression", VStr (Str.replace "^" "**" expression))].
Proof.
  intros Hlookup. unfold evaluate_arithmetic, dict_get. rewrite Hlookup.
  cbn [dict_lookup String.eqb Ascii.eqb Bool.eqb].
  now rewrite replace_idempotent.
Qed.

Lemma X2_caret_is_power_witness :
  evaluate_arithmetic [("expression", VStr "2^3^2")] =
  evaluate_arithmetic [("expression", VStr "2**3**2")].
Proof. apply (X2_caret_is_power _ "2^3^2"). reflexivity. Defined.



(** X4: a well-formed expression in which, reading from left to right, a
    division by zero (or zero raised to a negative power) comes before any
    non-integer result makes the handler raise [ValueError] with
    [ZeroDivisionError] as cause. *)
Theorem X4_division_by_zero (args : dict) (e : sum) :
  dict_lookup args "expression" = Some (VStr (render_sum e)) ->
  sum_verdict e = DivisionByZero ->
  evaluate_arithmetic args = Raise (ValueError ZeroDivisionError).
Proof.
  intros Hlookup Hverdict.
  now rewrite (evaluate_arithmetic_render _ _ Hlookup), Hverdict.
Qed.

Lemma X4_division_by_zero_witness :
  render_sum dividing_by_zero = "7+3*2/(4-2^2)" /\
  evaluate_arithmetic [("expression", VStr "7+3*2/(4-2^2)")]
  = Raise (ValueError ZeroDivisionError).
Proof.
  split; [reflexivity|].
  apply (X4_division_by_zero _ dividing_by_zero); reflexivity.
Defined.

End ArithmeticFacts.

(* ================================================================== *)
(** * Feedback on dates *)

Section DateFacts.

Import LLMAgent.

Lemma is_alpha_Y : is_alpha "Y" = true. Proof. reflexivity. Qed.
Lemma is_alpha_M : is_alpha "M" = true. Proof. reflexivity. Qed.
Lemma is_alpha_D : is_alpha "D" = true. Proof. reflexivity. Qed.
Lemma is_alpha_dash : is_alpha "-" = false. Proof. reflexivity. Qed.

Ltac next_char s :=
  let c := fresh "c" in
  destruct s as [|c s]; [reflexivity|];
  cbn [Re.match_rep Re.atom_matches Re.match_nodes matches];
  rewrite ?is_alpha_Y, ?is_alpha_M, ?is_alpha_D, ?is_alpha_dash;
  match goal with
  | |- context [is_digit c] => destruct (is_digit c); [|reflexivity]
  | |- context [Ascii.eqb "-" c] => destruct (Ascii.eqb "-" c); [|reflexivity]
  end;
  cbn [andb].

(** The date pattern of the source accepts the texts of the form
    YYYY-MM-DD and no others. *)
Lemma date_regex_matches (s : string) :
  match Re.match_nodes true date_regex s with
  | Some EmptyString => true
  | _ => false
  end = matches "YYYY-MM-DD" s.
Proof.
  unfold date_regex. cbn [Re.match_nodes].
  do 10 next_char s.
  cbn [Nat.eqb andb Re.match_nodes].
  destruct s as [|x [|y s]]; cbn [Re.at_end matches]; try reflexivity.
  destruct (Ascii.eqb x "010"); reflexivity.
Qed.

Lemma get_date_feedback_unfold (h : host) (predict : string) (w : world) :
  Str.forallb Re.is_ascii predict = true ->
  get_date_feedback h predict w =
  if matches "YYYY-MM-DD" predict then
    (Ret (if String.eqb predict (strftime "%Y-%m-%d" (now h (clock_reads w)))
          then "Success!" else "Error: Wrong date."),
     {| trace := trace w; clock_reads := S (clock_reads w) |})
  else (Ret "Error: Date format incorrect. Expected YYYY-MM-DD.", w).
Proof.
  intros Hascii.
  unfold get_date_feedback, Re.fullmatch. rewrite Hascii, date_regex_matches.
  unfold mbind at 1, lift.
  destruct (matches "YYYY-MM-DD" predict); cbn [negb]; [|reflexivity].
  unfold mbind, datetime_now, mret.
  destruct (String.eqb predict _); reflexivity.
Qed.

Lemma digit_is_ascii (c : ascii) : is_digit c = true -> Re.is_ascii c = true.
Proof.
  destruct c as [[] [] [] [] [] [] [] []]; cbv; intros H;
    try discriminate H; reflexivity.
Qed.

Lemma matches_ascii (pattern text : string) :
  Str.forallb Re.is_ascii pattern = true ->
  matches pattern text = true ->
  Str.forallb Re.is_ascii text = true.
Proof.
  revert text; induction pattern as [|p pattern IH]; intros text Hp Hm.
  - destruct text; [reflexivity|discriminate Hm].
  - destruct text as [|c text]; [discriminate Hm|].
    cbn [Str.forallb matches] in *.
    apply andb_true_iff in Hp as [Hp1 Hp2].
    apply andb_true_iff in Hm as [Hm1 Hm2].
    rewrite (IH _ Hp2 Hm2), andb_true_r.
    destruct (is_alpha p).
    + now apply digit_is_ascii.
    + apply Ascii.eqb_eq in Hm1. now subst c.
Qed.

(** X5: a prediction that is not of the form YYYY-MM-DD gets the format
    error, and the clock is not read. *)
Theorem X5_date_format_error (h : host) (predict : string) (w : world) :
  Str.forallb Re.is_ascii predict = true ->
  matches "YYYY-MM-DD" predict = false ->
  get_date_feedback h predict w =
    (Ret "Error: Date format incorrect. Expected YYYY-MM-DD.", w).
Proof.
  intros Hascii Hformat.
  now rewrite get_date_feedback_unfold, Hformat.
Qed.

Lemma X5_date_format_error_witness :
  let h := scripted_host (assistant "" None) "unused" in
  get_date_feedback h "7 March 2025" (fresh 0) =
    (Ret "Error: Date format incorrect. Expected YYYY-MM-DD.", fresh 0).
Proof. intros h. apply X5_date_format_error; reflexivity. Defined.

(** X6: the feedback is ["Success!"] exactly when the prediction is the
    clock's date written as YYYY-MM-DD; a prediction of the right form for
    another day gets ["Error: Wrong date."]. *)
Theorem X6_date_feedback (h : host) (predict : string) (w : world) :
  let today := strftime "%Y-%m-%d" (now h (clock_reads w)) in
  Str.forallb Re.is_ascii predict = true ->
  valid_datetime (now h (clock_reads w)) ->
  (fst (get_date_feedback h predict w) = Ret "Success!" <-> predict = today) /\
  (matches "YYYY-MM-DD" predict = true -> predict <> today ->
   fst (get_date_feedback h predict w) = Ret "Error: Wrong date.").
Proof.
  intros today Hascii Hvalid.
  rewrite get_date_feedback_unfold by assumption. fold today.
  split.
  - split.
    + destruct (matches "YYYY-MM-DD" predict); cbn [fst]; [|discriminate].
      destruct (String.eqb_spec predict today); [auto|discriminate].
    + intros ->. unfold today at 1. rewrite strftime_date by assumption.
      now rewrite String.eqb_refl.
  - intros -> Hne. cbn [fst].
    destruct (String.eqb_spec predict today); [contradiction|reflexivity].
Qed.

Lemma X6_date_feedback_witness :
  let h := scripted_host (assistant "" None) "unused" in
  fst (get_date_feedback h "2025-03-07" (fresh 0)) = Ret "Success!" /\
  fst (get_date_feedback h "2025-03-08" (fresh 0)) = Ret "Error: Wrong date.".
Proof.
  intros h.
  assert (Hvalid : valid_datetime (now h 0)) by (unfold valid_datetime; cbn; lia).
  split.
  - apply (X6_date_feedback h "2025-03-07" (fresh 0) eq_refl Hvalid). reflexivity.
  - apply (X6_date_feedback h "2025-03-08" (fresh 0) eq_refl Hvalid);
      [reflexivity|discriminate].
Defined.

Lemma strftime_same_date (a b : datetime) :
  same_date a b -> strftime "%Y-%m-%d" a = strftime "%Y-%m-%d" b.
Proof.
  intros (Hy & Hm & Hd).
  cbn [strftime directive Ascii.eqb Bool.eqb]. now rewrite Hy, Hm, Hd.
Qed.

(** X7: the [current_date] that [get_current_time] reports is accepted by
    [get_date_feedback] as long as the clock still shows the same day. *)
Theorem X7_current_date_is_accepted (h : host) (args : option dict) (w w2 : world) :
  valid_datetime (now h (clock_reads w)) ->
  same_date (now h (clock_reads w)) (now h (clock_reads w2)) ->
  exists current_time current_date timezone w',
    get_current_time h args w =
      (Ret (VDict [("current_time", VStr current_time);
                   ("current_date", VStr current_date);
                   ("timezone", VStr timezone)]), w') /\
    fst (get_date_feedback h current_date w2) = Ret "Success!".
Proof.
  intros Hvalid Hsame.
  exists (strftime "%H:%M:%S" (now h (clock_reads w))),
         (strftime "%Y-%m-%d" (now h (clock_reads w))),
         (or_default (tzname h (now h (S (clock_reads w)))) "UTC"),
         {| trace := trace w; clock_reads := S (S (clock_reads w)) |}.
  split; [reflexivity|].
  pose proof (strftime_date _ Hvalid) as Hformat.
  rewrite get_date_feedback_unfold
    by (apply (matches_ascii "YYYY-MM-DD"); [reflexivity|exact Hformat]).
  rewrite Hformat. cbn [fst].
  now rewrite (strftime_same_date _ _ Hsame), String.eqb_refl.
Qed.

Lemma X7_current_date_is_accepted_witness :
  let h := scripted_host (assistant "" None) "unused" in
  exists current_date,
    dict_lookup
      (match fst (get_current_time h None (fresh 0)) with
       | Ret (VDict items) => items
       | _ => []
       end) "current_date" = Some (VStr current_date) /\
    fst (get_date_feedback h current_date (fresh 2)) = Ret "Success!".
Proof.
  intros h.
  destruct (X7_current_date_is_accepted h None (fresh 0) (fresh 2))
    as (t & d & z & w' & Hrun & Hfeedback).
  - unfold valid_datetime; cbn; lia.
  - repeat split.
  - exists d. rewrite Hrun. split; [reflexivity|exact Hfeedback].
Defined.

End DateFacts.

(* ================================================================== *)
(** * More on the orchestration loop *)

Section QueryFacts.

Import LLMAgent.
Local Open Scope list_scope.







(** X10: an ["expression"] that is not a string has no [replace] method;
    the [AttributeError] is raised outside the handler's [try] and is not
    a [ValueError], so [process_query] raises it to its caller. *)
Theorem X10_expression_not_a_string (h : host) (model user_query : string) (k : nat)
        (earlier later : list tool_call) (evss : list (list event))
        (c : tool_call) (f : function_call) (v : value) :
  let msg := resp_message (initial_response h model user_query) in
  msg_tool_calls msg = Some (CallList (earlier ++ c :: later)) ->
  Forall2 (skipped h) earlier evss ->
  tc_function c = Some f ->
  fn_name f = "evaluate_arithmetic" ->
  dict_lookup (fn_arguments f) "expression" = Some v ->
  (forall s, v <> VStr s) ->
  fst (process_query h model user_query (fresh k)) = Raise (AttributeError "replace").
Proof.
  intros msg Hcalls Hskip Hf Hname Hlookup Hv.
  assert (Hrun : evaluate_arithmetic (fn_arguments f) = Raise (AttributeError "replace")).
  { unfold evaluate_arithmetic, dict_get. rewrite Hlookup.
    destruct v; try reflexivity. now elim (Hv s). }
  assert (Hloop : fst (for_tool_calls h model user_query msg (earlier ++ c :: later)
                         (log (fresh k) (opening h model user_query)))
                  = Raise (AttributeError "replace")).
  { rewrite (for_tool_calls_skipped_prefix _ _ _ _ _ _ _ _ Hskip).
    rewrite (for_tool_calls_step _ _ _ _ _ _ _ _ Hf), getitem_TOOLS, Hname.
    cbn [String.eqb Ascii.eqb Bool.eqb handler lift]. cbv zeta.
    rewrite Hrun. reflexivity. }
  rewrite process_query_unfold. cbv zeta. fold msg. rewrite Hcalls.
  destruct earlier; cbn [app] in *;
    destruct (for_tool_calls _ _ _ _ _ _) as [[[x|]|x|] w2];
    cbn [fst] in *; congruence.
Qed.

Lemma X10_expression_not_a_string_witness :
  let c := {| tc_function :=
                Some {| fn_name := "evaluate_arithmetic";
                        fn_arguments := [("expression", VInt 42)] |} |} in
  let h := scripted_host (assistant "" (Some (CallList [c]))) "unused" in
  fst (process_query h MODEL "What is 42?" (fresh 0)) = Raise (AttributeError "replace").
Proof.
  intros c h.
  apply (X10_expression_not_a_string h MODEL "What is 42?" 0 [] [] [] c
           {| fn_name := "evaluate_arithmetic";
              fn_arguments := [("expression", VInt 42)] |} (VInt 42));
    try reflexivity.
  - constructor.
  - discriminate.
Defined.

Lemma chat_requests_app a b : chat_requests (a ++ b) = chat_requests a ++ chat_requests b.
Proof. unfold chat_requests. apply List.flat_map_app. Qed.

(** What the loop adds to the trace: either no chat call, and then it does
    not return from inside, or one follow-up call carrying the result of
    a handler that ran and succeeded, whose answer it returns. *)
Lemma for_tool_calls_requests (h : host) (model user_query : string) (msg : message)
      (calls : list tool_call) (w : world) :
  exists evs,
    trace (snd (for_tool_calls h model user_query msg calls w)) = trace w ++ evs /\
    ((chat_requests evs = [] /\
      forall x, fst (for_tool_calls h model user_query msg calls w) <> Ret (Some x)) \/
     (exists name args v,
        let request := followup_request model user_query msg name v in
        In (HandlerCall name args (Ret v)) evs /\
        chat_requests evs = [request] /\
        fst (for_tool_calls h model user_query msg calls w) =
          Ret (Some (VStr (msg_content (resp_message (ollama_chat h request))))))).
Proof.
  revert w; induction calls as [|c rest IH]; intros w.
  - exists []. cbn. rewrite List.app_nil_r.
    split; [reflexivity|]. left. split; [reflexivity|discriminate].
  - destruct (tc_function c) as [f|] eqn:Hf.
    + rewrite (for_tool_calls_step _ _ _ _ _ _ _ _ Hf).
      destruct (getitem (TOOLS h) (fn_name f) w) as [[t|e|] w1] eqn:Hget.
      * destruct (handler_trace _ _ _ (fn_arguments f) _ _ Hget) as [-> Htr].
        destruct (handler t (fn_arguments f) w) as [outcome w2].
        cbn [snd] in Htr. cbv zeta.
        destruct outcome as [v|e|].
        -- eexists. cbn [snd fst log trace]. rewrite Htr, <- List.app_assoc.
           split; [reflexivity|]. right.
           exists (fn_name f), (fn_arguments f), v. cbv zeta.
           split; [cbn; auto|]. split; reflexivity.
        -- destruct (is_ValueError e).
           ++ destruct (IH (log (log w2 [HandlerCall (fn_name f) (fn_arguments f) (Raise e)])
                                [Print (ToolExecutionError e)]))
                as (evs & Hevs & Hcases).
              exists ([HandlerCall (fn_name f) (fn_arguments f) (Raise e);
                       Print (ToolExecutionError e)] ++ evs).
              rewrite Hevs. cbn [log trace]. rewrite Htr, <- !List.app_assoc.
              split; [reflexivity|].
              destruct Hcases as [[Hnone Hret]|(name & args & v & Hin & Hreq & Hret)].
              ** left. split; [exact Hnone|exact Hret].
              ** right. exists name, args, v. cbv zeta.
                 split; [cbn; auto|]. split; [exact Hreq|exact Hret].
           ++ eexists. cbn [snd fst log trace]. rewrite Htr.
              split; [reflexivity|]. left. split; [reflexivity|discriminate].
        -- eexists. cbn [snd fst log trace]. rewrite Htr.
           split; [reflexivity|]. left. split; [reflexivity|discriminate].
      * rewrite getitem_TOOLS in Hget.
        destruct (String.eqb "evaluate_arithmetic" (fn_name f)); [discriminate|].
        destruct (String.eqb "get_current_time" (fn_name f)); [discriminate|].
        injection Hget as <- <-. cbn [is_ValueError snd fst].
        exists []. rewrite List.app_nil_r.
        split; [reflexivity|]. left. split; [reflexivity|discriminate].
      * rewrite getitem_TOOLS in Hget.
        destruct (String.eqb "evaluate_arithmetic" (fn_name f)); [discriminate|].
        destruct (String.eqb "get_current_time" (fn_name f)); discriminate.
    + rewrite (for_tool_calls_no_function _ _ _ _ _ _ _ Hf). apply IH.
Qed.

(** X11: one run sends either the initial request alone, and then what
    it returns (if it returns) is the first message's content; or the
    initial request followed by one request without tool definitions,
    whose tool message carries the result of a handler call recorded as
    successful, and then it returns the content of the second response.
    The user's message opens both requests. *)
Theorem X11_requests_and_answer (h : host) (model user_query : string) (k : nat) :
  let msg := resp_message (initial_response h model user_query) in
  let run := process_query h model user_query (fresh k) in
  (chat_requests (trace (snd run)) = [initial_request h model user_query] /\
   forall v, fst run = Ret v -> v = VStr (msg_content msg)) \/
  (exists name args result,
     let request := followup_request model user_query msg name result in
     In (HandlerCall name args (Ret result)) (trace (snd run)) /\
     chat_requests (trace (snd run)) = [initial_request h model user_query; request] /\
     fst run = Ret (VStr (msg_content (resp_message (ollama_chat h request))))).
Proof.
  cbv zeta. rewrite process_query_unfold. cbv zeta.
  set (msg := resp_message (initial_response h model user_query)).
  destruct (msg_tool_calls msg) as [[|[|c cs]]|];
    try (left; split; [reflexivity|cbn [fst]; intros v [= <-]; reflexivity]).
  destruct (for_tool_calls_requests h model user_query msg (c :: cs)
              (log (fresh k) (opening h model user_query)))
    as (evs & Hevs & Hcases).
  destruct (for_tool_calls _ _ _ _ _ _) as [[[v|]|x|] w2]; cbn [fst snd] in *;
    rewrite Hevs; cbn [log fresh trace app]; rewrite chat_requests_app;
    change (chat_requests (opening h model user_query))
      with [initial_request h model user_query];
    (destruct Hcases as [[Hnone Hret]|(name & args & r & Hin & Hreq & Hret)];
     [left; rewrite Hnone; split;
      [reflexivity
      |intros y Hy; try discriminate Hy; try (now elim (Hret v));
       injection Hy as <-; reflexivity]
     |right; exists name, args, r; cbv zeta; rewrite Hreq;
      split; [apply List.in_or_app; right; exact Hin|];
      split; [reflexivity|congruence]]).
Qed.

(** X12: every definition that [get_tool_definitions] advertises names a
    tool of the table whose definition it is, so a call by an advertised
    name never ends in [KeyError]; two definitions are advertised. *)
Theorem X12_advertised_tools_resolve (h : host) (d : value) :
  In d (get_tool_definitions h) ->
  exists name t,
    definition_name d = Some name /\
    (forall w, getitem (TOOLS h) name w = (Ret t, w)) /\
    definition t = d.
Proof.
  intros [<-|[<-|[]]].
  - exists "evaluate_arithmetic". eexists. repeat split.
  - exists "get_current_time". eexists. repeat split.
Qed.

Lemma X12_advertised_tools_resolve_witness :
  let h := scripted_host (assistant "" None) "unused" in
  exists name,
    definition_name (List.nth 1 (get_tool_definitions h) VNone) = Some name /\
    name = "get_current_time".
Proof.
  intros h.
  destruct (X12_advertised_tools_resolve h (List.nth 1 (get_tool_definitions h) VNone))
    as (name & t & Hname & _).
  - cbn. auto.
  - exists name. split; [exact Hname|].
    cbn in Hname. now injection Hname as <-.
Defined.

Lemma repr_char_plain (c : ascii) :
  plain_char c = true -> repr_char "'" c = String c "" /\ Ascii.eqb c "'" = false.
Proof.
  destruct c as [[] [] [] [] [] [] [] []]; cbv; intros H;
    try discriminate H; split; reflexivity.
Qed.

Lemma digit_is_plain (c : ascii) : is_digit c = true -> plain_char c = true.
Proof.
  destruct c as [[] [] [] [] [] [] [] []]; cbv; intros H;
    try discriminate H; reflexivity.
Qed.

Lemma repr_str_plain (s : string) :
  plain s = true -> repr_str s = String "'" (s ++ "'").
Proof.
  intros Hplain. unfold repr_str.
  assert (Hquote : contains "'" s = false).
  { unfold contains. apply negb_false_iff.
    induction s as [|c s IH]; [reflexivity|].
    cbn [plain Str.forallb] in *. apply andb_true_iff in Hplain as [Hc Hs].
    destruct (repr_char_plain c Hc) as [_ ->]. cbn [negb andb]. now apply IH. }
  rewrite Hquote. cbn [andb]. f_equal.
  induction s as [|c s IH]; [reflexivity|].
  cbn [plain Str.forallb] in Hplain. apply andb_true_iff in Hplain as [Hc Hs].
  cbn [repr_chars]. destruct (repr_char_plain c Hc) as [-> _].
  cbn [append]. f_equal. apply IH; [exact Hs|].
  unfold contains in *. cbn [Str.forallb] in Hquote.
  destruct (repr_char_plain c Hc) as [_ E]. rewrite E in Hquote. exact Hquote.
Qed.

Lemma matches_plain (pattern text : string) :
  plain pattern = true -> matches pattern text = true -> plain text = true.
Proof.
  unfold plain.
  revert text; induction pattern as [|p pattern IH]; intros text Hp Hm.
  - destruct text; [reflexivity|discriminate Hm].
  - destruct text as [|c text]; [discriminate Hm|].
    cbn [Str.forallb matches] in *.
    apply andb_true_iff in Hp as [Hp1 Hp2].
    apply andb_true_iff in Hm as [Hm1 Hm2].
    rewrite (IH _ Hp2 Hm2), andb_true_r.
    destruct (is_alpha p).
    + now apply digit_is_plain.
    + apply Ascii.eqb_eq in Hm1. now subst c.
Qed.

(** X13: what the model is shown after a call of the time tool is the
    Python rendering of the handler's dictionary, keys and values in single
    quotes, as long as the zone's name has no quote, backslash or control
    character. *)
Theorem X13_time_tool_message (h : host) (args : option dict) (w : world) :
  let zone := or_default (tzname h (now h (S (clock_reads w)))) "UTC" in
  valid_datetime (now h (clock_reads w)) ->
  plain zone = true ->
  exists current_time current_date result,
    fst (get_current_time h args w) = Ret result /\
    matches "HH:MM:SS" current_time = true /\
    matches "YYYY-MM-DD" current_date = true /\
    tool_message "get_current_time" result =
      {| msg_role := "tool";
         msg_content := "{'current_time': '" ++ current_time ++
                        "', 'current_date': '" ++ current_date ++
                        "', 'timezone': '" ++ zone ++ "'}";
         msg_name := Some "get_current_time";
         msg_tool_calls := None |}.
Proof.
  intros zone Hvalid Hzone.
  pose proof (strftime_time _ Hvalid) as Htime.
  pose proof (strftime_date _ Hvalid) as Hdate.
  exists (strftime "%H:%M:%S" (now h (clock_reads w))),
         (strftime "%Y-%m-%d" (now h (clock_reads w))).
  eexists. split; [reflexivity|]. split; [exact Htime|]. split; [exact Hdate|].
  unfold tool_message. f_equal.
  cbn [py_str py_repr List.map Str.join fst snd clock_reads].
  unfold zone in Hzone |- *.
  rewrite (repr_str_plain (strftime "%H:%M:%S" _))
    by (apply (matches_plain "HH:MM:SS"); [reflexivity|exact Htime]).
  rewrite (repr_str_plain (strftime "%Y-%m-%d" _))
    by (apply (matches_plain "YYYY-MM-DD"); [reflexivity|exact Hdate]).
  rewrite (repr_str_plain _ Hzone).
  change (repr_str "current_time") with "'current_time'".
  change (repr_str "current_date") with "'current_date'".
  change (repr_str "timezone") with "'timezone'".
  repeat (rewrite ?append_assoc; cbn [append]).
  reflexivity.
Qed.

Lemma X13_time_tool_message_witness :
  let h := scripted_host (assistant "" None) "unused" in
  valid_datetime (now h 0) /\
  exists current_time current_date result,
    fst (get_current_time h None (fresh 0)) = Ret result /\
    matches "HH:MM:SS" current_time = true /\
    matches "YYYY-MM-DD" current_date = true /\
    msg_content (tool_message "get_current_time" result) =
      ("{'current_time': '" ++ current_time ++
       "', 'current_date': '" ++ current_date ++ "', 'timezone': 'CET'}")%string.
Proof.
  intros h.
  assert (Hvalid : valid_datetime (now h 0)) by (unfold valid_datetime; cbn; lia).
  split; [exact Hvalid|].
  destruct (X13_time_tool_message h None (fresh 0) Hvalid eq_refl)
    as (t & d & result & Hrun & Ht & Hd & Hmsg).
  exists t, d, result. rewrite Hmsg. repeat split; assumption.
Defined.

End QueryFacts.
